(** * Whiz POS back office: salary records, connection manager, request guard

    A shallow embedding of
    - [models/Salary.js]             the Mongoose schema of a salary record,
    - the salary controller          [getSalaries], [addSalary], [deleteSalary],
    - the server bootstrap           [connectDB] and the database guard middleware,
    followed by the properties of the specification that concern them.

    The collection is a list of documents in natural (insertion) order, the
    clock and the database driver are part of an explicit world, [try/catch]
    is an error monad, and an [async] function is cut at its [await]s into a
    start function and a resume function. *)

From Stdlib Require Import ZArith QArith Qcanon Lia.
From stdpp Require Import base numbers strings gmap list sorting pretty.

Local Open Scope Z_scope.
Local Open Scope string_scope.

(** ** JavaScript values *)

Module Js.

(** The values a parsed request body and the session can hold.  A number is
    a finite one, as JSON carries it; [Date] is a valid [Date] object, as
    its milliseconds since the epoch. *)
#[warnings="-register-all"] Inductive value : Type :=
  | Undefined
  | Null
  | Bool (b : bool)
  | Num (q : Qc)
  | Str (s : string)
  | Date (ms : Z)
  | Arr (items : list value)
  | Obj (props : list (string * value)).

(** ToBoolean: what [v || e] tests. *)
Definition truthy (v : value) : bool :=
  match v with
  | Undefined | Null => false
  | Bool b => b
  | Num q => negb (bool_decide (q = 0%Qc))
  | Str s => negb (bool_decide (s = ""))
  | Date _ | Arr _ | Obj _ => true
  end.

(** A plain object used as a record of named properties. *)
Abbreviation object := (gmap string value).

(** Property read [o.k]: a missing property reads as [undefined]. *)
Definition get (o : object) (k : string) : value := default Undefined (o !! k).

(** [process.env.K]: unset, or a string; the empty string is falsy. *)
Definition env_truthy (v : option string) : bool :=
  match v with
  | None => false
  | Some s => negb (bool_decide (s = ""))
  end.

End Js.

(** ** The part of Mongoose the schema relies on *)

(** A path of a document: never assigned, [null], or a value of the path's
    schema type. *)
Inductive Field (A : Type) : Type :=
  | Unset
  | NullV
  | Val (a : A).
Arguments Unset {A}.
Arguments NullV {A}.
Arguments Val {A} a.

#[global] Instance Field_eq_dec {A} `{EqDecision A} : EqDecision (Field A).
Proof. solve_decision. Defined.

(** What a schema type's caster answers on a value that is neither
    [undefined] nor [null]. *)
Inductive Cast (A : Type) : Type :=
  | CastError
  | CastNull
  | CastTo (a : A).
Arguments CastError {A}.
Arguments CastNull {A}.
Arguments CastTo {A} a.

(** The casters of the three schema types used by [Salary.js] belong to the
    Mongoose package, not to this repository; they are an interface here.
    Three facts about them are used: a string casts to itself, the string
    caster never answers [null], and a valid [Date] object casts to itself.
    Whether the [enum] validator lets [null] through is a parameter too
    (the current releases of Mongoose do: a validator other than [required]
    passes [null]). *)
Class Mongoose : Type := {
  castString : Js.value → Cast string;
  castNumber : Js.value → Cast Qc;
  castDate : Js.value → Cast Z;
  enumAcceptsNull : bool;
  castString_Str : ∀ s, castString (Js.Str s) = CastTo s;
  castString_value : ∀ v, castString v ≠ CastNull;
  castDate_Date : ∀ t, castDate (Js.Date t) = CastTo t
}.

Module Schema.

Inductive Default (A : Type) : Type :=
  | NoDefault
  | Const (a : A)
  | DateNow (f : Z → A).
Arguments NoDefault {A}.
Arguments Const {A} a.
Arguments DateNow {A} f.

(** The options of one path of a [mongoose.Schema]. *)
Record PathOptions (A : Type) : Type := {
  required : bool;
  unique : bool;
  enum : option (list A);
  dflt : Default A
}.
Arguments required {A} _.
Arguments unique {A} _.
Arguments enum {A} _.
Arguments dflt {A} _.

(** Assigning a raw value to a path when a document is constructed:
    [undefined] is skipped, [null] is kept, anything else goes through the
    caster.  [None] is a cast error, remembered until validation. *)
Definition setPath {A} (caster : Js.value → Cast A) (v : Js.value)
  : option (Field A) :=
  match v with
  | Js.Undefined => Some Unset
  | Js.Null => Some NullV
  | _ => match caster v with
         | CastError => None
         | CastNull => Some NullV
         | CastTo a => Some (Val a)
         end
  end.

(** A default fills a path that is still unset; [default: Date.now] reads
    the clock to do so. *)
Definition needsClock {A} (o : PathOptions A) (f : Field A) : bool :=
  match f, dflt o with
  | Unset, DateNow _ => true
  | _, _ => false
  end.

Definition applyDefault {A} (o : PathOptions A) (now : Z) (f : Field A)
  : Field A :=
  match f with
  | Unset => match dflt o with
             | NoDefault => Unset
             | Const a => Val a
             | DateNow g => Val (g now)
             end
  | _ => f
  end.

(** The [required] validator: the path holds a value (for a string, a
    non-empty one). *)
Definition checkRequired {A} (nonEmpty : A → bool) (f : Field A) : bool :=
  match f with
  | Val a => nonEmpty a
  | _ => false
  end.

(** The [enum] validator; validators other than [required] do not run on
    an unset path. *)
Definition checkEnum {A} `{EqDecision A} `{Mongoose} (vals : list A)
    (f : Field A) : bool :=
  match f with
  | Unset => true
  | NullV => enumAcceptsNull
  | Val a => bool_decide (a ∈ vals)
  end.

Definition validatePath {A} `{EqDecision A} `{Mongoose}
    (o : PathOptions A) (nonEmpty : A → bool) (f : Field A) : bool :=
  (if required o then checkRequired nonEmpty f else true)
  && match enum o with
     | Some vals => checkEnum vals f
     | None => true
     end.

End Schema.

(** ** models/Salary.js *)

Module Salary.
Import Schema.

(** A document of the [Salary] model (the generated [_id] is left out). *)
Record Doc : Type := {
  salaryId : Field string;
  employeeName : Field string;
  amount : Field Qc;
  type : Field string;
  date : Field Z;
  notes : Field string;
  recordedBy : Field string;
  createdAt : Field Z
}.

#[global] Instance Doc_eq_dec : EqDecision Doc.
Proof. solve_decision. Defined.

Record SchemaOf : Type := {
  p_salaryId : PathOptions string;
  p_employeeName : PathOptions string;
  p_amount : PathOptions Qc;
  p_type : PathOptions string;
  p_date : PathOptions Z;
  p_notes : PathOptions string;
  p_recordedBy : PathOptions string;
  p_createdAt : PathOptions Z
}.

Definition salarySchema : SchemaOf := {|
  p_salaryId :=
    {| required := true; unique := true; enum := None; dflt := NoDefault |};
  p_employeeName :=
    {| required := true; unique := false; enum := None; dflt := NoDefault |};
  p_amount :=
    {| required := true; unique := false; enum := None; dflt := NoDefault |};
  p_type :=
    {| required := false; unique := false;
       enum := Some ["full"; "advance"]; dflt := Const "full" |};
  p_date :=
    {| required := true; unique := false; enum := None; dflt := NoDefault |};
  p_notes :=
    {| required := false; unique := false; enum := None; dflt := NoDefault |};
  p_recordedBy :=
    {| required := false; unique := false; enum := None; dflt := NoDefault |};
  p_createdAt :=
    {| required := false; unique := false; enum := None;
       dflt := DateNow (λ now, now) |}
|}.

End Salary.

(** ** The world the handlers run in *)

(** What the handlers can catch.  A validation error carries the set of
    failing paths (the keys of its [errors] object). *)
Inductive Error : Type :=
  | TypeError (msg : string)
  | ValidationError (paths : gset string)
  | DuplicateKey (key : string)
  | StoreUnavailable.

(** [store] is the collection; [dbUp] tells whether the driver can reach it
    (with [bufferCommands: false] an operation on a closed connection
    throws); [time] is the clock at the last observation and [ticks] the
    milliseconds that will have passed at each coming observation;
    [console] collects what [console.error] receives. *)
Record World : Type := {
  store : list Salary.Doc;
  dbUp : bool;
  time : Z;
  ticks : list N;
  console : list Error
}.

Definition setStore (s : list Salary.Doc) (w : World) : World :=
  {| store := s; dbUp := dbUp w; time := time w; ticks := ticks w;
     console := console w |}.

Definition logError (e : Error) (w : World) : World :=
  {| store := store w; dbUp := dbUp w; time := time w; ticks := ticks w;
     console := console w ++ [e] |}.

Definition advance (w : World) : World :=
  match ticks w with
  | [] => w
  | d :: ds =>
      {| store := store w; dbUp := dbUp w; time := time w + Z.of_N d;
         ticks := ds; console := console w |}
  end.

(** Computations that may throw. *)
Definition M (A : Type) : Type := World → (Error + A) * World.

Definition throw {A} (e : Error) : M A := λ w, (inl e, w).

#[global] Instance M_ret : MRet M := λ A a w, (inr a, w).
#[global] Instance M_bind : MBind M := λ A B k m w,
  match m w with
  | (inl e, w') => (inl e, w')
  | (inr a, w') => k a w'
  end.

(** [try { m } catch (err) { h err }] where the handler does not throw. *)
Definition tryCatch {A} (m : M A) (h : Error → World → A * World)
  : World → A * World :=
  λ w, match m w with
       | (inl e, w') => h e w'
       | (inr a, w') => (a, w')
       end.

(** [Date.now()], and the time value of [new Date()]: the clock is
    observed after the next span of [ticks] has passed. *)
Definition dateNow : M Z := λ w, let w' := advance w in (inr (time w'), w').

(** ** The [Salary] model: documents, validation and queries *)

Module Model.
Import Schema Salary.

(** A document under construction, with the paths whose value could not be
    cast. *)
Record Built : Type := {
  doc : Doc;
  castErrors : gset string
}.

(** One path of the constructor: the cast value, or a cast error. *)
Definition assign {A} (caster : Js.value → Cast A) (v : Js.value)
    (path : string) : Field A * gset string :=
  match setPath caster v with
  | Some f => (f, ∅)
  | None => (Unset, {[path]})
  end.

(** The value a path takes from a raw property. *)
Definition pathValue {A} (caster : Js.value → Cast A) (v : Js.value) : Field A :=
  fst (assign caster v "").

(** The document [new Salary(obj)] holds: every schema path is read from
    [obj] (other keys of [obj] are ignored), cast, and given its default
    when still unset; [now] is what a [Date.now] default yields. *)
Definition assemble `{Mongoose} (obj : Js.object) (now : Z) : Built :=
  let '(fId, e1) := assign castString (Js.get obj "salaryId") "salaryId" in
  let '(fName, e2) :=
    assign castString (Js.get obj "employeeName") "employeeName" in
  let '(fAmount, e3) := assign castNumber (Js.get obj "amount") "amount" in
  let '(fType, e4) := assign castString (Js.get obj "type") "type" in
  let '(fDate, e5) := assign castDate (Js.get obj "date") "date" in
  let '(fNotes, e6) := assign castString (Js.get obj "notes") "notes" in
  let '(fBy, e7) :=
    assign castString (Js.get obj "recordedBy") "recordedBy" in
  let '(fCreated, e8) :=
    assign castDate (Js.get obj "createdAt") "createdAt" in
  {| doc := {|
       salaryId := applyDefault (p_salaryId salarySchema) now fId;
       employeeName := applyDefault (p_employeeName salarySchema) now fName;
       amount := applyDefault (p_amount salarySchema) now fAmount;
       type := applyDefault (p_type salarySchema) now fType;
       date := applyDefault (p_date salarySchema) now fDate;
       notes := applyDefault (p_notes salarySchema) now fNotes;
       recordedBy := applyDefault (p_recordedBy salarySchema) now fBy;
       createdAt := applyDefault (p_createdAt salarySchema) now fCreated
     |};
     castErrors := e1 ∪ e2 ∪ e3 ∪ e4 ∪ e5 ∪ e6 ∪ e7 ∪ e8 |}.

(** [new Salary(obj)].  Two defaults read the clock, in this order: the
    generated [_id], when [obj] brings none (an ObjectId carries the time
    of its creation; the document model leaves [_id] out, the reading of
    the clock stays), and [createdAt], when that path is still unset. *)
Definition construct `{Mongoose} (obj : Js.object) : M Built :=
  match Js.get obj "_id" with
  | Js.Undefined => dateNow
  | _ => mret 0
  end;;
  now ← (if needsClock (p_createdAt salarySchema)
              (fst (assign castDate (Js.get obj "createdAt") "createdAt"))
         then dateNow else mret 0);
  mret (assemble obj now).

Definition nonEmptyString (s : string) : bool := negb (bool_decide (s = "")).
Definition anyValue {A} (_ : A) : bool := true.

Definition failing {A} `{EqDecision A} `{Mongoose} (o : PathOptions A)
    (nonEmpty : A → bool) (f : Field A) (path : string) : gset string :=
  if validatePath o nonEmpty f then ∅ else {[path]}.

(** The paths that fail validation: those with a cast error and those
    rejected by a validator of the schema. *)
Definition validate `{Mongoose} (b : Built) : gset string :=
  let d := doc b in
  castErrors b
  ∪ failing (p_salaryId salarySchema) nonEmptyString (salaryId d) "salaryId"
  ∪ failing (p_employeeName salarySchema) nonEmptyString (employeeName d)
      "employeeName"
  ∪ failing (p_amount salarySchema) anyValue (amount d) "amount"
  ∪ failing (p_type salarySchema) nonEmptyString (type d) "type"
  ∪ failing (p_date salarySchema) anyValue (date d) "date"
  ∪ failing (p_notes salarySchema) nonEmptyString (notes d) "notes"
  ∪ failing (p_recordedBy salarySchema) nonEmptyString (recordedBy d)
      "recordedBy"
  ∪ failing (p_createdAt salarySchema) anyValue (createdAt d) "createdAt".

(** The key of a document in the unique index on [salaryId]. *)
Definition indexKey (d : Doc) : option string :=
  match salaryId d with
  | Val s => Some s
  | _ => None
  end.

(** The unique index on [salaryId]: no two documents share a key. *)
Definition uniqueIds (s : list Doc) : Prop := NoDup (indexKey <$> s).

Definition keyTaken (k : option string) (s : list Doc) : bool :=
  existsb (λ d, bool_decide (indexKey d = k)) s.

(** [doc.save()] of a new document: validate, then insert; the insert is
    refused by the unique index when the key is taken. *)
Definition save `{Mongoose} (b : Built) : M unit := λ w,
  if decide (validate b = ∅) then
    if negb (dbUp w) then (inl StoreUnavailable, w)
    else if unique (p_salaryId salarySchema)
              && keyTaken (indexKey (doc b)) (store w)
    then (inl (DuplicateKey (default "" (indexKey (doc b)))), w)
    else (inr tt, setStore (store w ++ [doc b]) w)
  else (inl (ValidationError (validate b)), w).

(** [Salary.find()]: every document, in natural order. *)
Definition find : M (list Doc) := λ w,
  if dbUp w then (inr (store w), w) else (inl StoreUnavailable, w).

(** The sort key of [{ date: -1 }]; a missing or null date sorts below every
    date. *)
Definition dateKey (d : Doc) : option Z :=
  match date d with
  | Val t => Some t
  | _ => None
  end.

Definition keyLe (a b : option Z) : bool :=
  match a, b with
  | None, _ => true
  | Some _, None => false
  | Some x, Some y => bool_decide (x ≤ y)%Z
  end.

(** [a] may come before [b] in descending date order. *)
Definition newerFirst (a b : Doc) : Prop := keyLe (dateKey b) (dateKey a).

#[global] Instance newerFirst_dec a b : Decision (newerFirst a b).
Proof. unfold newerFirst. apply _. Defined.

(** [.sort({ date: -1 })]. *)
Definition sortDateDesc (l : list Doc) : list Doc := merge_sort newerFirst l.

(** Removing the first document that satisfies a filter. *)
Fixpoint removeFirst (p : Doc → bool) (l : list Doc) : option Doc * list Doc :=
  match l with
  | [] => (None, [])
  | d :: l' =>
      if p d then (Some d, l')
      else let '(r, l'') := removeFirst p l' in (r, d :: l'')
  end.

(** [Salary.findOneAndDelete({ salaryId: id })]: resolves to the removed
    document, or to [null] when nothing matches. *)
Definition findOneAndDelete (id : string) : M (option Doc) := λ w,
  if dbUp w then
    let '(r, s) :=
      removeFirst (λ d, bool_decide (salaryId d = Val id)) (store w) in
    (inr r, setStore s w)
  else (inl StoreUnavailable, w).

End Model.

(** ** The salary controller *)

Module Controller.
Import Salary Model.

(** The session user, as far as the controller looks at it. *)
Record User : Type := { name : Js.value }.

(** The parts of an Express request the handlers read: [req.body],
    [req.params.id] and [req.session.user] ([None] when nobody is logged
    in). *)
Record Request : Type := {
  body : Js.object;
  params_id : string;
  session_user : option User
}.

Record Locals : Type := {
  title : string;
  salaries : list Doc;
  user : option User;
  path : string
}.

Inductive Response : Type :=
  | Render (view : string) (locals : Locals)
  | Redirect (url : string)
  | Send (status : nat) (text : string).

(** The [catch] block shared by the three handlers: [console.error(err)],
    then [res.status(500).send('Server Error')]. *)
Definition serverError (err : Error) : World → Response * World :=
  λ w, (Send 500 "Server Error", logError err w).

Definition getSalaries (req : Request) : World → Response * World :=
  tryCatch
    (found ← find;
     let salaries := sortDateDesc found in
     mret (Render "pages/salaries"
             {| title := "Salaries"; salaries := salaries;
                user := session_user req; path := "/salaries" |}))
    serverError.

(** What [req.session.user.name] throws without a session user. *)
Definition noSessionUser : Error :=
  TypeError "Cannot read properties of undefined (reading 'name')".

(** The object literal passed to [new Salary]. *)
Definition salaryObject (stamp : Z)
    (employeeName amount type date notes recordedBy : Js.value) : Js.object :=
  <["salaryId" := Js.Str ("SAL" +:+ pretty stamp)]>
  (<["employeeName" := employeeName]>
  (<["amount" := amount]>
  (<["type" := type]>
  (<["date" := date]>
  (<["notes" := notes]>
  (<["recordedBy" := recordedBy]> ∅)))))).

(** The destructuring of [req.body] and the evaluation of the object
    literal, its properties top to bottom: [Date.now()] first, [new Date()]
    only when [date] is falsy, the session user's name last. *)
Definition salaryFields (req : Request) : M Js.object :=
  let employeeName := Js.get (body req) "employeeName" in
  let amount := Js.get (body req) "amount" in
  let type := Js.get (body req) "type" in
  let date := Js.get (body req) "date" in
  let notes := Js.get (body req) "notes" in
  stamp ← dateNow;
  date' ← (if Js.truthy date then mret date
           else (t ← dateNow; mret (Js.Date t)));
  recordedBy ← match session_user req with
               | Some u => mret (name u)
               | None => throw noSessionUser
               end;
  mret (salaryObject stamp employeeName amount type date' notes recordedBy).

Definition addSalary `{Mongoose} (req : Request) : World → Response * World :=
  tryCatch
    (fields ← salaryFields req;
     newSalary ← construct fields;
     save newSalary;;
     mret (Redirect "/salaries"))
    serverError.

Definition deleteSalary (req : Request) : World → Response * World :=
  tryCatch
    (findOneAndDelete (params_id req);;
     mret (Redirect "/salaries"))
    serverError.

End Controller.

(** ** The server bootstrap: connection manager and database guard *)

Module Server.

(** [mongoose.connection.readyState]: 0, 1, 2, 3. *)
Inductive ReadyState : Type :=
  | Disconnected
  | Connected
  | Connecting
  | Disconnecting.

#[global] Instance ReadyState_eq_dec : EqDecision ReadyState.
Proof. solve_decision. Defined.

(** What a connection promise resolves to. *)
Definition Handle : Type := nat.

(** How a connection promise settles. *)
Inductive Outcome : Type :=
  | Resolve (h : Handle)
  | Reject.

(** The process-wide state the bootstrap code works on: the cache object
    [global.mongoose], the three environment variables it reads,
    Mongoose's ready state, every call of [mongoose.connect] made so far
    (the promise of the [i]-th call is promise [i]; [None] while pending),
    and what the coming calls of [MongoMemoryServer.create()] will yield
    (the URI of the new server, or [None] when creation throws). *)
Record State : Type := {
  cached_conn : option Handle;
  cached_promise : option nat;
  MONGODB_URI : option string;
  VERCEL : option string;
  VERCEL_ENV : option string;
  readyState : ReadyState;
  attempts : list (string * option Outcome);
  memoryServers : list (option string)
}.

Definition setConn (h : Handle) (s : State) : State :=
  {| cached_conn := Some h; cached_promise := cached_promise s;
     MONGODB_URI := MONGODB_URI s; VERCEL := VERCEL s;
     VERCEL_ENV := VERCEL_ENV s; readyState := readyState s;
     attempts := attempts s; memoryServers := memoryServers s |}.

Definition setPromise (p : nat) (s : State) : State :=
  {| cached_conn := cached_conn s; cached_promise := Some p;
     MONGODB_URI := MONGODB_URI s; VERCEL := VERCEL s;
     VERCEL_ENV := VERCEL_ENV s; readyState := readyState s;
     attempts := attempts s; memoryServers := memoryServers s |}.

Definition setUri (uri : string) (s : State) : State :=
  {| cached_conn := cached_conn s; cached_promise := cached_promise s;
     MONGODB_URI := Some uri; VERCEL := VERCEL s;
     VERCEL_ENV := VERCEL_ENV s; readyState := readyState s;
     attempts := attempts s; memoryServers := memoryServers s |}.

(** [mongoose.connect(uri, ...)]: a new pending promise; the connection
    goes to [Connecting]. *)
Definition mongooseConnect (uri : string) (s : State) : nat * State :=
  (length (attempts s),
   {| cached_conn := cached_conn s; cached_promise := cached_promise s;
      MONGODB_URI := MONGODB_URI s; VERCEL := VERCEL s;
      VERCEL_ENV := VERCEL_ENV s; readyState := Connecting;
      attempts := attempts s ++ [(uri, None)];
      memoryServers := memoryServers s |}).

(** The driver settles a pending connection promise. *)
Definition settle (p : nat) (o : Outcome) (s : State) : State :=
  match attempts s !! p with
  | Some (uri, None) =>
      {| cached_conn := cached_conn s; cached_promise := cached_promise s;
         MONGODB_URI := MONGODB_URI s; VERCEL := VERCEL s;
         VERCEL_ENV := VERCEL_ENV s;
         readyState := match o with
                       | Resolve _ => Connected
                       | Reject => Disconnected
                       end;
         attempts := <[p := (uri, Some o)]> (attempts s);
         memoryServers := memoryServers s |}
  | _ => s
  end.

(** What a call of [connectDB] returns. *)
Inductive Result : Type :=
  | Conn (h : Handle)
  | RNull
  | RUndefined.

(** Where a call of [connectDB] is suspended: at [await cached.promise] of
    the configured-URI branch (with the value of [isVercel]), at
    [await MongoMemoryServer.create()] (with what the creation yields), or
    at [await cached.promise] of the in-memory branch. *)
Inductive Cont : Type :=
  | AfterConnect (p : nat) (isVercel : bool)
  | AfterCreate (created : option string)
  | AfterFallbackConnect (p : nat).

Inductive Step : Type :=
  | Done (r : Result)
  | Suspended (k : Cont).

(** The in-memory branch up to its first [await]. *)
Definition fallback (s : State) : Step * State :=
  match memoryServers s with
  | created :: rest =>
      (Suspended (AfterCreate created),
       {| cached_conn := cached_conn s; cached_promise := cached_promise s;
          MONGODB_URI := MONGODB_URI s; VERCEL := VERCEL s;
          VERCEL_ENV := VERCEL_ENV s; readyState := readyState s;
          attempts := attempts s; memoryServers := rest |})
  | [] => (Suspended (AfterCreate None), s)
  end.

(** The last [if] of [connectDB]: the in-memory branch, entered only when
    [isVercel] is falsy; otherwise the function falls off its end. *)
Definition inMemoryBranch (isVercel : bool) (s : State) : Step * State :=
  if negb isVercel then fallback s else (Done RUndefined, s).

(** [connectDB()] up to its first [await] or [return]. *)
Definition connectDB (s : State) : Step * State :=
  match cached_conn s with
  | Some h => (Done (Conn h), s)
  | None =>
      let mongoUri := MONGODB_URI s in
      let isVercel :=
        Js.env_truthy (VERCEL s) || Js.env_truthy (VERCEL_ENV s) in
      if negb (Js.env_truthy mongoUri) && isVercel then (Done RNull, s)
      else if Js.env_truthy mongoUri then
        match cached_promise s with
        | Some p => (Suspended (AfterConnect p isVercel), s)
        | None =>
            let '(p, s') := mongooseConnect (default "" mongoUri) s in
            (Suspended (AfterConnect p isVercel), setPromise p s')
        end
      else inMemoryBranch isVercel s
  end.

(** The rest of [connectDB] after an [await]; [None] while the awaited
    promise is pending.  A rejection lands in the [catch] of the branch. *)
Definition resume (k : Cont) (s : State) : option (Step * State) :=
  match k with
  | AfterConnect p isVercel =>
      match attempts s !! p with
      | Some (_, Some (Resolve h)) => Some (Done (Conn h), setConn h s)
      | Some (_, Some Reject) =>
          if isVercel then Some (Done RNull, s)
          else Some (inMemoryBranch isVercel s)
      | _ => None
      end
  | AfterCreate (Some uri) =>
      let '(p, s') := mongooseConnect uri (setUri uri s) in
      Some (Suspended (AfterFallbackConnect p), setPromise p s')
  | AfterCreate None => Some (Done RUndefined, s)
  | AfterFallbackConnect p =>
      match attempts s !! p with
      | Some (_, Some (Resolve h)) => Some (Done (Conn h), setConn h s)
      | Some (_, Some Reject) => Some (Done RUndefined, s)
      | _ => None
      end
  end.

(** The promise a suspended call waits for. *)
Definition awaited (k : Cont) : option nat :=
  match k with
  | AfterConnect p _ | AfterFallbackConnect p => Some p
  | AfterCreate _ => None
  end.

(** Running a call to its end: whenever it waits for a promise that is still
    pending, the promise is settled with the next outcome of [outs] (a
    rejection when [outs] is used up). *)
Fixpoint run (fuel : nat) (outs : list Outcome) (st : Step) (s : State)
  : option (Result * State) :=
  match st with
  | Done r => Some (r, s)
  | Suspended k =>
      match fuel with
      | O => None
      | S fuel' =>
          let '(s1, outs1) :=
            match awaited k with
            | Some p =>
                match attempts s !! p with
                | Some (_, None) => (settle p (hd Reject outs) s, tl outs)
                | _ => (s, outs)
                end
            | None => (s, outs)
            end in
          match resume k s1 with
          | Some (st', s2) => run fuel' outs1 st' s2
          | None => None
          end
      end
  end.

(** [await connectDB()]: a call has at most three [await]s. *)
Definition awaitConnectDB (outs : list Outcome) (s : State)
  : option (Result * State) :=
  let '(st, s') := connectDB s in run 3 outs st s'.

(** What the guard does with a request. *)
Inductive Verdict : Type :=
  | Next
  | Respond (status : nat) (pageTitle : string).

(** The guard from its last test on: the error page unless connected. *)
Definition lastCheck (s : State) : Verdict :=
  if bool_decide (readyState s ≠ Connected)
  then Respond 503 "Setup Required"
  else Next.

(** Where the guard stands before any [await]. *)
Inductive GuardStep : Type :=
  | Decided (v : Verdict)
  | AwaitingConnectDB.

Definition guardStart (s : State) : GuardStep :=
  if negb (Js.env_truthy (VERCEL s)) && negb (Js.env_truthy (VERCEL_ENV s))
  then Decided Next
  else if bool_decide (readyState s = Connected) then Decided Next
  else if bool_decide (readyState s = Connecting) then AwaitingConnectDB
  else Decided (lastCheck s).

(** The guard after [await connectDB()] has come back. *)
Definition guardResume (s : State) : Verdict :=
  if bool_decide (readyState s = Connected) then Next else lastCheck s.

(** The guard on one request, run to its verdict. *)
Definition dbGuard (outs : list Outcome) (s : State)
  : option (Verdict * State) :=
  match guardStart s with
  | Decided v => Some (v, s)
  | AwaitingConnectDB =>
      match awaitConnectDB outs s with
      | Some (_, s') => Some (guardResume s', s')
      | None => None
      end
  end.

(** The cached promise is one that [mongoose.connect] made. *)
Definition wf (s : State) : Prop :=
  ∀ p, cached_promise s = Some p → (p < length (attempts s))%nat.

(** The managed deployment context, as both [connectDB] and the guard test
    it. *)
Definition onVercel (s : State) : bool :=
  Js.env_truthy (VERCEL s) || Js.env_truthy (VERCEL_ENV s).

(** A request arriving while a first connection attempt is in flight on
    Vercel. *)
Definition coldStart : State := {|
  cached_conn := None;
  cached_promise := Some 0%nat;
  MONGODB_URI := Some "mongodb+srv://cluster/pos";
  VERCEL := Some "1";
  VERCEL_ENV := None;
  readyState := Connecting;
  attempts := [("mongodb+srv://cluster/pos", None)];
  memoryServers := []
|}.

End Server.

(** ** A caster instance to run the model on *)

Definition sampleCastString (v : Js.value) : Cast string :=
  match v with
  | Js.Str s => CastTo s
  | Js.Bool true => CastTo "true"
  | Js.Bool false => CastTo "false"
  | _ => CastError
  end.

Definition sampleCastNumber (v : Js.value) : Cast Qc :=
  match v with
  | Js.Num q => CastTo q
  | Js.Str "" => CastNull
  | _ => CastError
  end.

Definition sampleCastDate (v : Js.value) : Cast Z :=
  match v with
  | Js.Date t => CastTo t
  | Js.Str "" => CastNull
  | _ => CastError
  end.

Lemma sampleCastString_value (v : Js.value) : sampleCastString v ≠ CastNull.
Proof. by destruct v as [| |[]| | | | |]. Qed.

Definition sampleMongoose : Mongoose := {|
  castString := sampleCastString;
  castNumber := sampleCastNumber;
  castDate := sampleCastDate;
  enumAcceptsNull := true;
  castString_Str := λ s, eq_refl;
  castString_value := sampleCastString_value;
  castDate_Date := λ t, eq_refl
|}.

(** ** Sample requests and worlds *)

Module Sample.
Import Salary Controller Server.

Definition clerk : User := {| name := Js.Str "Wanjiru" |}.

Definition amount500 : Js.value := Js.Num (Q2Qc (inject_Z 500)).

(** The scenario of the specification: Alice, 500, an advance, no date. *)
Definition createAlice : Request := {|
  body := <["employeeName" := Js.Str "Alice"]>
          (<["amount" := amount500]>
          (<["type" := Js.Str "advance"]> ∅));
  params_id := "";
  session_user := Some clerk
|}.

(** The same with a [type] outside the enumeration. *)
Definition createBonus : Request := {|
  body := <["employeeName" := Js.Str "Alice"]>
          (<["amount" := amount500]>
          (<["type" := Js.Str "bonus"]> ∅));
  params_id := "";
  session_user := Some clerk
|}.

(** No [type], no [date]. *)
Definition createPlain : Request := {|
  body := <["employeeName" := Js.Str "Brian"]> (<["amount" := amount500]> ∅);
  params_id := "";
  session_user := Some clerk
|}.

(** The same as [createPlain] with three more properties in the body. *)
Definition createForged : Request := {|
  body := <["salaryId" := Js.Str "SAL1"]>
          (<["recordedBy" := Js.Str "root"]>
          (<["createdAt" := Js.Date 0]>
          (<["employeeName" := Js.Str "Brian"]> (<["amount" := amount500]> ∅))));
  params_id := "";
  session_user := Some clerk
|}.

(** Nobody is logged in. *)
Definition createAnonymous : Request := {|
  body := <["employeeName" := Js.Str "Alice"]> (<["amount" := amount500]> ∅);
  params_id := "";
  session_user := None
|}.

Definition deleteRequest (id : string) : Request :=
  {| body := ∅; params_id := id; session_user := Some clerk |}.

Definition emptyWorld : World := {|
  store := [];
  dbUp := true;
  time := 1700000000000;
  ticks := [1%N; 0%N; 2%N];
  console := []
|}.

Definition paid (id : string) (who : string) (day : Z) : Doc := {|
  salaryId := Val id;
  employeeName := Val who;
  amount := Val (Q2Qc (inject_Z 500));
  type := Val "full";
  date := Val day;
  notes := Unset;
  recordedBy := Val "Wanjiru";
  createdAt := Val day
|}.

(** Three documents, not in date order; the clock does not move. *)
Definition threePaid : World := {|
  store := [paid "SAL30" "Alice" 30; paid "SAL10" "Brian" 10;
            paid "SAL20" "Chao" 20];
  dbUp := true;
  time := 40;
  ticks := [];
  console := []
|}.

(** A collection that already holds the id the next create will stamp. *)
Definition sameMillisecond : World := {|
  store := [paid "SAL40" "Alice" 40];
  dbUp := true;
  time := 40;
  ticks := [];
  console := []
|}.

(** A fresh process on Vercel with a configured URI. *)
Definition freshOnVercel : State := {|
  cached_conn := None;
  cached_promise := None;
  MONGODB_URI := Some "mongodb+srv://cluster/pos";
  VERCEL := Some "1";
  VERCEL_ENV := None;
  readyState := Disconnected;
  attempts := [];
  memoryServers := []
|}.

End Sample.

(** ** The view-globals middleware *)

Module Middleware.
Import Controller Server.

(** What the middleware of lines 84-91 stores in [res.locals]. *)
Record ViewGlobals : Type := {
  businessName : string;
  currentPath : string;
  localsUser : option User;
  dbMissing : Js.value
}.

(** [process.env.K] as a JavaScript value. *)
Definition envValue (v : option string) : Js.value :=
  match v with
  | None => Js.Undefined
  | Some s => Js.Str s
  end.

(** The middleware computes the four globals and always calls [next()].
    [!readyState] is true for state 0 only, and [a && b] is [b] when [a] is
    true and [a] otherwise; [req.session.user || null] is [null] exactly
    when there is no session user. *)
Definition viewGlobals (BUSINESS_NAME : option string) (reqPath : string)
    (sessionUser : option User) (s : State) : ViewGlobals :=
  {| businessName :=
       if Js.env_truthy BUSINESS_NAME then default "" BUSINESS_NAME
       else "WHIZ POS";
     currentPath := reqPath;
     localsUser := sessionUser;
     dbMissing :=
       if bool_decide (readyState s = Disconnected) then envValue (VERCEL s)
       else Js.Bool false |}.

(** Where a request ends after the two middlewares that precede the
    routes: forwarded to the routes with its view globals, or answered by
    the guard. *)
Inductive Routed : Type :=
  | ToRoutes (globals : ViewGlobals)
  | Answered (status : nat) (pageTitle : string).

(** The view-globals middleware, then the database guard. *)
Definition beforeRoutes (BUSINESS_NAME : option string) (reqPath : string)
    (sessionUser : option User) (outs : list Outcome) (s : State)
  : option (Routed * State) :=
  let globals := viewGlobals BUSINESS_NAME reqPath sessionUser s in
  match dbGuard outs s with
  | Some (Next, s') => Some (ToRoutes globals, s')
  | Some (Respond status page, s') => Some (Answered status page, s')
  | None => None
  end.

End Middleware.

(** ** Starting the server *)

Module Listen.

(** What [app.listen(port)] leads to: the listening callback, or an
    ['error'] event with its code. *)
Inductive ListenOutcome : Type :=
  | Listening
  | AddrInUse
  | OtherError (code : string).

#[local] Set Warnings "-abstract-large-number".

(** The highest port there is: [app.listen] throws a [RangeError] for a
    larger one. *)
Definition maxPort : nat := 65535.

(** The lines [startServer] writes; the last one stands for the
    [RangeError] of [app.listen], which nothing catches. *)
Inductive LogLine : Type :=
  | ServerRunning (port : nat)
  | FallbackWarning (defaultPort port : nat)
  | PortBusy (port next : nat)
  | ServerErrorLine (code : string)
  | UncaughtRangeError (port : nat).

(** [startServer(port)], where [listen] tells what listening on a port
    leads to and [DEFAULT_PORT] is [parseInt(DEFAULT_PORT)].  The result is
    the port the server listens on ([None] when it gave up on an error other
    than EADDRINUSE, or when [app.listen] threw on a port above [maxPort])
    and the lines written; the recursion of the source has no bound of its
    own, so the model takes the number of attempts it may make and is
    undefined when they are used up. *)
Fixpoint startServer (attempts : nat) (listen : nat → ListenOutcome)
    (DEFAULT_PORT : nat) (port : nat) : option (option nat * list LogLine) :=
  match attempts with
  | O => None
  | S attempts' =>
      if bool_decide (maxPort < port)%nat
      then Some (None, [UncaughtRangeError port])
      else
      match listen port with
      | Listening =>
          Some (Some port,
                ServerRunning port
                :: (if bool_decide (port ≠ DEFAULT_PORT)
                    then [FallbackWarning DEFAULT_PORT port] else []))
      | AddrInUse =>
          match startServer attempts' listen DEFAULT_PORT (port + 1) with
          | Some (r, lines) => Some (r, PortBusy port (port + 1) :: lines)
          | None => None
          end
      | OtherError code => Some (None, [ServerErrorLine code])
      end
  end.

End Listen.

(** ** Sequences of requests *)

Module Scenario.
Import Schema Salary Model Controller.

(** One step of the life of the collection: a request to one of the three
    handlers, or the driver losing or regaining the database. *)
Inductive Event : Type :=
  | ListSalaries (req : Request)
  | AddSalary (req : Request)
  | DeleteSalary (req : Request)
  | Database (up : bool).

Definition setDbUp (up : bool) (w : World) : World :=
  {| store := store w; dbUp := up; time := time w; ticks := ticks w;
     console := console w |}.

Definition step `{Mongoose} (w : World) (e : Event) : World :=
  match e with
  | ListSalaries req => (getSalaries req w).2
  | AddSalary req => (addSalary req w).2
  | DeleteSalary req => (deleteSalary req w).2
  | Database up => setDbUp up w
  end.

Definition serve `{Mongoose} (events : list Event) (w : World) : World :=
  foldl step w events.

(** What the schema promises of a stored document: the required paths hold
    a value (a non-empty one for the strings), [type] is one of the
    enumerated values (or [null] where the validator lets it through), and
    [createdAt] is set. *)
Definition conforms `{Mongoose} (d : Doc) : Prop :=
  (∃ id, salaryId d = Val id ∧ id ≠ "")
  ∧ (∃ n, employeeName d = Val n ∧ n ≠ "")
  ∧ (∃ a, amount d = Val a)
  ∧ (type d = Val "full" ∨ type d = Val "advance"
     ∨ (type d = NullV ∧ enumAcceptsNull = true))
  ∧ (∃ t, date d = Val t)
  ∧ (∃ c, createdAt d = Val c).

End Scenario.

(** ** More sample requests, days and processes *)

Module Cases.
Import Salary Controller Server Listen Scenario Sample.

#[local] Set Warnings "-abstract-large-number".

(** A JSON body whose [type] is [null]. *)
Definition createNullType : Request := {|
  body := <["type" := Js.Null]> (body createAlice);
  params_id := "";
  session_user := Some clerk
|}.





(** An empty [employeeName] and no [amount]. *)
Definition createNameless : Request := {|
  body := <["employeeName" := Js.Str ""]> ∅;
  params_id := "";
  session_user := Some clerk
|}.

(** A day at the back office: a create, a look at the list, an outage
    during which a create fails, and the deletion of the first record. *)
Definition oneDay : list Event :=
  [AddSalary createAlice; ListSalaries (deleteRequest "");
   Database false; AddSalary createPlain; Database true;
   AddSalary createPlain; DeleteSalary (deleteRequest "SAL1700000000001")].

(** Ports 5000 and 5001 are taken. *)
Definition twoPortsTaken (port : nat) : ListenOutcome :=
  if bool_decide (port < 5002)%nat then AddrInUse else Listening.

(** Every port is taken. *)
Definition allPortsTaken (port : nat) : ListenOutcome := AddrInUse.

(** Vercel without a configured URI. *)
Definition vercelWithoutUri : State := {|
  cached_conn := None;
  cached_promise := None;
  MONGODB_URI := None;
  VERCEL := Some "1";
  VERCEL_ENV := Some "production";
  readyState := Disconnected;
  attempts := [];
  memoryServers := []
|}.

(** Vercel after the first attempt was rejected. *)
Definition vercelRejected : State := {|
  cached_conn := None;
  cached_promise := Some 0%nat;
  MONGODB_URI := Some "mongodb+srv://cluster/pos";
  VERCEL := Some "1";
  VERCEL_ENV := None;
  readyState := Disconnected;
  attempts := [("mongodb+srv://cluster/pos", Some Reject)];
  memoryServers := []
|}.

(** A developer's machine without a configured URI. *)
Definition localWithoutUri : State := {|
  cached_conn := None;
  cached_promise := None;
  MONGODB_URI := None;
  VERCEL := None;
  VERCEL_ENV := None;
  readyState := Disconnected;
  attempts := [];
  memoryServers := [Some "mongodb://127.0.0.1:40000/"]
|}.

(** A developer's machine whose configured database is down. *)
Definition localUnreachable : State := {|
  cached_conn := None;
  cached_promise := None;
  MONGODB_URI := Some "mongodb://localhost:27017/pos";
  VERCEL := None;
  VERCEL_ENV := None;
  readyState := Disconnected;
  attempts := [];
  memoryServers := [Some "mongodb://127.0.0.1:40000/"]
|}.

End Cases.

(** * Properties *)

Import Schema Salary Model Controller.

Local Open Scope list_scope.

(** ** Listing *)

Lemma keyLe_total (a b : option Z) : keyLe a b ∨ keyLe b a.
Proof.
  destruct a as [x|], b as [y|]; simpl; auto.
  destruct (decide (x ≤ y)%Z).
  - left. by apply bool_decide_pack.
  - right. apply bool_decide_pack. lia.
Qed.

Lemma keyLe_trans (a b c : option Z) : keyLe a b → keyLe b c → keyLe a c.
Proof.
  destruct a as [x|], b as [y|], c as [z|]; simpl; try done.
  intros Hxy%bool_decide_unpack Hyz%bool_decide_unpack.
  apply bool_decide_pack. lia.
Qed.

#[global] Instance newerFirst_total : Total newerFirst.
Proof. intros a b. unfold newerFirst. destruct (keyLe_total (dateKey b) (dateKey a)); auto. Qed.

#[global] Instance newerFirst_trans : Transitive newerFirst.
Proof. intros a b c Hab Hbc. unfold newerFirst in *. eauto using keyLe_trans. Qed.

(** In a strongly sorted list the relation holds between any two positions
    in list order. *)
Lemma StronglySorted_lookup_lt {A} (R : relation A) (l : list A) i j a b :
  StronglySorted R l → (i < j)%nat → l !! i = Some a → l !! j = Some b → R a b.
Proof.
  intros Hs. revert i j. induction Hs as [|x l Hs IH Hall]; intros i j Hij Hi Hj.
  - by rewrite lookup_nil in Hi.
  - destruct j as [|j]; [lia|]. simpl in Hj.
    destruct i as [|i].
    + simpl in Hi. injection Hi as ->.
      rewrite Forall_forall in Hall. apply Hall.
      by eapply list_elem_of_lookup_2.
    + simpl in Hi. apply (IH i j); [lia|done..].
Qed.

Lemma sortDateDesc_perm (l : list Doc) : sortDateDesc l ≡ₚ l.
Proof. apply merge_sort_Permutation. Qed.

Lemma sortDateDesc_sorted (l : list Doc) : StronglySorted newerFirst (sortDateDesc l).
Proof. apply (StronglySorted_merge_sort newerFirst). Qed.

(** C1.  Whatever the collection holds, [getSalaries] renders the list page
    with all of its documents (a permutation of the collection, hence as
    many), ordered by [date] descending: of two listed documents the one
    listed first never has the older date.  Nothing is said about the
    order of documents with equal dates.  The collection is left as it
    was.  (When the driver cannot reach the collection the handler answers
    500 instead.) *)
Theorem getSalaries_lists_all_by_date_desc (req : Request) (w : World) :
  dbUp w = true →
  ∃ listed : list Doc,
    getSalaries req w =
      (Render "pages/salaries"
         {| title := "Salaries"; salaries := listed;
            user := session_user req; path := "/salaries" |}, w)
    ∧ listed ≡ₚ store w
    ∧ length listed = length (store w)
    ∧ (∀ d, d ∈ listed ↔ d ∈ store w)
    ∧ (∀ i j a b, (i < j)%nat → listed !! i = Some a → listed !! j = Some b →
         keyLe (dateKey b) (dateKey a))
    ∧ (∀ i j a b ta tb, (i < j)%nat → listed !! i = Some a → listed !! j = Some b →
         date a = Val ta → date b = Val tb → (tb ≤ ta)%Z).
Proof.
  intros Hup. exists (sortDateDesc (store w)).
  pose proof (sortDateDesc_perm (store w)) as Hperm.
  pose proof (sortDateDesc_sorted (store w)) as Hsorted.
  assert (Hord : ∀ i j a b, (i < j)%nat →
            sortDateDesc (store w) !! i = Some a →
            sortDateDesc (store w) !! j = Some b →
            keyLe (dateKey b) (dateKey a)).
  { intros i j a b Hij Ha Hb.
    exact (StronglySorted_lookup_lt newerFirst _ i j a b Hsorted Hij Ha Hb). }
  split_and!.
  - unfold getSalaries, tryCatch, find, mbind, M_bind, mret, M_ret.
    by rewrite Hup.
  - done.
  - by rewrite Hperm.
  - intros d. by rewrite Hperm.
  - done.
  - intros i j a b ta tb Hij Ha Hb Hta Htb.
    specialize (Hord i j a b Hij Ha Hb).
    unfold dateKey in Hord. rewrite Hta, Htb in Hord. simpl in Hord.
    by apply bool_decide_unpack in Hord.
Qed.

(** ** Creating *)

Lemma advance_store w : store (advance w) = store w.
Proof. unfold advance. by destruct (ticks w). Qed.

Lemma advance_dbUp w : dbUp (advance w) = dbUp w.
Proof. unfold advance. by destruct (ticks w). Qed.

Lemma advance_console w : console (advance w) = console w.
Proof. unfold advance. by destruct (ticks w). Qed.

Lemma advance_time w : (time w ≤ time (advance w))%Z.
Proof. unfold advance. destruct (ticks w); simpl; lia. Qed.

(** [salaryFields] as a straight line: one clock reading for the stamp, a
    second one when [date] is falsy, then the session user. *)
Lemma salaryFields_run (req : Request) (w : World) :
  let date := Js.get (body req) "date" in
  let w1 := advance w in
  let w2 := if Js.truthy date then w1 else advance w1 in
  salaryFields req w =
    match session_user req with
    | None => (inl noSessionUser, w2)
    | Some u =>
        (inr (salaryObject (time w1)
                (Js.get (body req) "employeeName")
                (Js.get (body req) "amount")
                (Js.get (body req) "type")
                (if Js.truthy date then date else Js.Date (time w2))
                (Js.get (body req) "notes")
                (name u)), w2)
    end.
Proof.
  unfold salaryFields, dateNow, throw, mbind, M_bind, mret, M_ret. simpl.
  destruct (Js.truthy (Js.get (body req) "date")), (session_user req); reflexivity.
Qed.

Section SalaryObject.
Context (stamp : Z) (n a t d no by_ : Js.value).

Let obj : Js.object := salaryObject stamp n a t d no by_.

Lemma get_salaryId : Js.get obj "salaryId" = Js.Str ("SAL" +:+ pretty stamp).
Proof. reflexivity. Qed.
Lemma get_employeeName : Js.get obj "employeeName" = n.
Proof. reflexivity. Qed.
Lemma get_amount : Js.get obj "amount" = a.
Proof. reflexivity. Qed.
Lemma get_type : Js.get obj "type" = t.
Proof. reflexivity. Qed.
Lemma get_date : Js.get obj "date" = d.
Proof. reflexivity. Qed.
Lemma get_notes : Js.get obj "notes" = no.
Proof. reflexivity. Qed.
Lemma get_recordedBy : Js.get obj "recordedBy" = by_.
Proof. reflexivity. Qed.
Lemma get_createdAt : Js.get obj "createdAt" = Js.Undefined.
Proof. reflexivity. Qed.

End SalaryObject.

Section Creating.
Context `{Mongoose}.

(** [new Salary] on the controller's object literal always reads the clock
    for [_id] and then for [createdAt], and never throws. *)
Lemma construct_salaryObject (stamp : Z) (n a t d no by_ : Js.value) (w : World) :
  construct (salaryObject stamp n a t d no by_) w =
    (inr (assemble (salaryObject stamp n a t d no by_)
            (time (advance (advance w)))),
     advance (advance w)).
Proof. reflexivity. Qed.

Lemma assign_fst {A} (caster : Js.value → Cast A) v path :
  fst (assign caster v path) = pathValue caster v.
Proof. unfold pathValue, assign. by destruct (setPath caster v). Qed.

Lemma applyDefault_none {A} (o : PathOptions A) (now : Z) (f : Field A) :
  dflt o = NoDefault → applyDefault o now f = f.
Proof. intros Ho. unfold applyDefault. rewrite Ho. by destruct f. Qed.

Lemma assemble_salaryObject_doc (stamp now : Z) (n a t d no by_ : Js.value) :
  doc (assemble (salaryObject stamp n a t d no by_) now) =
    {| salaryId := Val ("SAL" +:+ pretty stamp);
       employeeName := pathValue castString n;
       amount := pathValue castNumber a;
       type := applyDefault (p_type salarySchema) now (pathValue castString t);
       date := pathValue castDate d;
       notes := pathValue castString no;
       recordedBy := pathValue castString by_;
       createdAt := Val now |}.
Proof.
  unfold assemble.
  rewrite get_salaryId, get_employeeName, get_amount, get_type, get_date,
    get_notes, get_recordedBy, get_createdAt.
  rewrite <- (assign_fst castString n "employeeName"),
    <- (assign_fst castNumber a "amount"), <- (assign_fst castString t "type"),
    <- (assign_fst castDate d "date"), <- (assign_fst castString no "notes"),
    <- (assign_fst castString by_ "recordedBy").
  unfold assign at 1. simpl setPath. rewrite castString_Str.
  destruct (assign castString n "employeeName"),
    (assign castNumber a "amount"), (assign castString t "type"),
    (assign castDate d "date"), (assign castString no "notes"),
    (assign castString by_ "recordedBy").
  simpl. f_equal; by apply applyDefault_none.
Qed.

Lemma assemble_salaryObject_key (stamp now : Z) (n a t d no by_ : Js.value) :
  indexKey (doc (assemble (salaryObject stamp n a t d no by_) now))
  = Some ("SAL" +:+ pretty stamp).
Proof. by rewrite assemble_salaryObject_doc. Qed.

Lemma assemble_salaryObject_errors (stamp now : Z) (n a t d no by_ : Js.value) :
  castErrors (assemble (salaryObject stamp n a t d no by_) now) =
    (assign castString n "employeeName").2 ∪ (assign castNumber a "amount").2
    ∪ (assign castString t "type").2 ∪ (assign castDate d "date").2
    ∪ (assign castString no "notes").2
    ∪ (assign castString by_ "recordedBy").2.
Proof.
  unfold assemble.
  rewrite get_salaryId, get_employeeName, get_amount, get_type, get_date,
    get_notes, get_recordedBy, get_createdAt.
  unfold assign at 1. simpl setPath. rewrite castString_Str.
  destruct (assign castString n "employeeName"),
    (assign castNumber a "amount"), (assign castString t "type"),
    (assign castDate d "date"), (assign castString no "notes"),
    (assign castString by_ "recordedBy").
  simpl. by rewrite (left_id_L ∅ (∪)), (right_id_L ∅ (∪)).
Qed.

(** [addSalary] with a session user, as a straight line. *)
Lemma addSalary_run (req : Request) (w : World) (u : User) :
  session_user req = Some u →
  let date := Js.get (body req) "date" in
  let w1 := advance w in
  let w2 := if Js.truthy date then w1 else advance w1 in
  let w3 := advance (advance w2) in
  let b := assemble
             (salaryObject (time w1)
                (Js.get (body req) "employeeName")
                (Js.get (body req) "amount")
                (Js.get (body req) "type")
                (if Js.truthy date then date else Js.Date (time w2))
                (Js.get (body req) "notes")
                (name u)) (time w3) in
  addSalary req w =
    if decide (validate b = ∅) then
      if negb (dbUp w) then
        (Send 500 "Server Error", logError StoreUnavailable w3)
      else if keyTaken (indexKey (doc b)) (store w) then
        (Send 500 "Server Error",
         logError (DuplicateKey (default "" (indexKey (doc b)))) w3)
      else (Redirect "/salaries", setStore (store w ++ [doc b]) w3)
    else (Send 500 "Server Error", logError (ValidationError (validate b)) w3).
Proof.
  intros Hu date w1 w2 w3 b.
  unfold addSalary, tryCatch.
  unfold mbind at 1, M_bind at 1.
  rewrite salaryFields_run, Hu. fold date w1 w2.
  unfold mbind at 1, M_bind at 1.
  rewrite construct_salaryObject. fold w3 b.
  unfold mbind, M_bind, save, mret, M_ret, serverError.
  assert (Hs : store w3 = store w).
  { subst w3 w2 w1. destruct (Js.truthy date); by rewrite !advance_store. }
  assert (Hd : dbUp w3 = dbUp w).
  { subst w3 w2 w1. destruct (Js.truthy date); by rewrite !advance_dbUp. }
  rewrite Hs, Hd.
  destruct (decide (validate b = ∅)); [|reflexivity].
  destruct (dbUp w); simpl; [|reflexivity].
  destruct (keyTaken _ _); reflexivity.
Qed.

End Creating.

Lemma indexKey_Some (d : Doc) (k : string) : indexKey d = Some k ↔ salaryId d = Val k.
Proof. unfold indexKey. destruct (salaryId d); naive_solver. Qed.

Lemma keyTaken_spec (k : string) (s : list Doc) :
  keyTaken (Some k) s = true ↔ ∃ e, e ∈ s ∧ salaryId e = Val k.
Proof.
  unfold keyTaken. rewrite existsb_exists. split.
  - intros (e & Hin & Hk). exists e. split; [by apply list_elem_of_In|].
    apply indexKey_Some. by apply bool_decide_eq_true in Hk.
  - intros (e & Hin & Hk). exists e. split; [by apply list_elem_of_In|].
    apply bool_decide_eq_true. by apply indexKey_Some.
Qed.

Lemma SAL_prefix (s : string) : String.prefix "SAL" ("SAL" +:+ s) = true.
Proof. by destruct s. Qed.

Lemma SAL_nonempty (s : string) : "SAL" +:+ s ≠ "".
Proof. discriminate. Qed.

Section CreatingProperties.
Context `{Mongoose}.

(** Without a session user the handler stops in the object literal. *)
Lemma addSalary_no_session (req : Request) (w : World) :
  session_user req = None →
  let w1 := advance w in
  let w2 := if Js.truthy (Js.get (body req) "date") then w1 else advance w1 in
  salaryFields req w = (inl noSessionUser, w2)
  ∧ addSalary req w = (Send 500 "Server Error", logError noSessionUser w2).
Proof.
  intros Hu w1 w2. pose proof (salaryFields_run req w) as Hf.
  cbv zeta in Hf. rewrite Hu in Hf. split; [exact Hf|].
  unfold addSalary, tryCatch, mbind, M_bind. by rewrite Hf.
Qed.

(** A successful create appended exactly one document: the one assembled
    from the object literal. *)
Lemma addSalary_success (req : Request) (w w' : World) :
  addSalary req w = (Redirect "/salaries", w') →
  ∃ u, session_user req = Some u ∧
    let date := Js.get (body req) "date" in
    let w1 := advance w in
    let w2 := if Js.truthy date then w1 else advance w1 in
    let w3 := advance (advance w2) in
    let b := assemble
               (salaryObject (time w1)
                  (Js.get (body req) "employeeName")
                  (Js.get (body req) "amount")
                  (Js.get (body req) "type")
                  (if Js.truthy date then date else Js.Date (time w2))
                  (Js.get (body req) "notes")
                  (name u)) (time w3) in
    validate b = ∅ ∧ dbUp w = true
    ∧ keyTaken (indexKey (doc b)) (store w) = false
    ∧ w' = setStore (store w ++ [doc b]) w3.
Proof.
  intros Hrun. destruct (session_user req) as [u|] eqn:Hu.
  - exists u. split; [done|]. intros date w1 w2 w3 b.
    pose proof (addSalary_run req w u Hu) as Hr. cbv zeta in Hr.
    fold date w1 w2 w3 b in Hr. rewrite Hr in Hrun. clear Hr.
    destruct (decide (validate b = ∅)); [|discriminate].
    destruct (dbUp w); simpl in Hrun; [|discriminate].
    destruct (keyTaken _ _); [discriminate|].
    by injection Hrun as <-.
  - destruct (addSalary_no_session req w Hu) as [_ Hr].
    rewrite Hr in Hrun. discriminate.
Qed.

(** Every failure of [addSalary] answers 500 and leaves the collection as
    it was. *)
Lemma addSalary_failure (req : Request) (w w' : World) (r : Response) :
  addSalary req w = (r, w') → r ≠ Redirect "/salaries" →
  r = Send 500 "Server Error" ∧ store w' = store w
  ∧ ∃ err, console w' = console w ++ [err].
Proof.
  intros Hrun Hr.
  set (w2 := if Js.truthy (Js.get (body req) "date")
             then advance w else advance (advance w)).
  assert (Hs2 : store w2 = store w).
  { subst w2. destruct (Js.truthy _); by rewrite ?advance_store. }
  assert (Hc2 : console w2 = console w).
  { subst w2. destruct (Js.truthy _); by rewrite ?advance_console. }
  assert (Hs3 : store (advance (advance w2)) = store w)
    by by rewrite !advance_store.
  assert (Hc3 : console (advance (advance w2)) = console w)
    by by rewrite !advance_console.
  destruct (session_user req) as [u|] eqn:Hu.
  - pose proof (addSalary_run req w u Hu) as Hrun'. cbv zeta in Hrun'.
    fold w2 in Hrun'. rewrite Hrun' in Hrun. clear Hrun'.
    destruct (decide (validate _ = ∅)).
    + destruct (dbUp w); simpl in Hrun.
      * destruct (keyTaken _ _).
        -- injection Hrun as <- <-. simpl. rewrite Hs3, Hc3. eauto.
        -- injection Hrun as <- <-. done.
      * injection Hrun as <- <-. simpl. rewrite Hs3, Hc3. eauto.
    + injection Hrun as <- <-. simpl. rewrite Hs3, Hc3. eauto.
  - destruct (addSalary_no_session req w Hu) as [_ Hrun'].
    fold w2 in Hrun'. rewrite Hrun' in Hrun. injection Hrun as <- <-. simpl.
    rewrite Hs2, Hc2. eauto.
Qed.

End CreatingProperties.

Lemma advance_setStore (s : list Doc) (w : World) :
  advance (setStore s w) = setStore s (advance w).
Proof. destruct w as [? ? ? [|d ds] ?]; reflexivity. Qed.

Lemma elem_of_validate_castErrors `{Mongoose} (b : Built) (path : string) :
  path ∈ castErrors b → path ∈ validate b.
Proof. intros Hin. unfold validate. rewrite !elem_of_union. tauto. Qed.

Lemma elem_of_validate_type `{Mongoose} (b : Built) :
  validatePath (p_type salarySchema) nonEmptyString (type (doc b)) = false →
  "type" ∈ validate b.
Proof.
  intros Hv. unfold validate. rewrite !elem_of_union.
  do 4 left. right. unfold failing. rewrite Hv. by apply elem_of_singleton.
Qed.

Section CreateClaims.
Context `{Mongoose}.

(** C2.  A successful create appends one document whose [salaryId] is
    ["SAL"] followed by the decimal reading of the clock at the
    [Date.now()] call; the id is therefore not empty and starts with
    ["SAL"], and no document already in the collection carries it.  When a
    document already carries the id the handler answers 500 and the
    collection stays as it was; if the request is otherwise acceptable (it
    would succeed on an empty collection) the error raised is the
    duplicate-key error of the unique index. *)
Theorem addSalary_salaryId_generated_and_unique :
  (∀ (req : Request) (w w' : World),
     addSalary req w = (Redirect "/salaries", w') →
     let id := "SAL" +:+ pretty (time (advance w)) in
     ∃ d : Doc,
       store w' = store w ++ [d]
       ∧ salaryId d = Val id
       ∧ id ≠ ""
       ∧ String.prefix "SAL" id = true
       ∧ ∀ e, e ∈ store w → salaryId e ≠ Val id)
  ∧ (∀ (req : Request) (w : World),
       let id := "SAL" +:+ pretty (time (advance w)) in
       (∃ e, e ∈ store w ∧ salaryId e = Val id) →
       ∃ w' : World,
         addSalary req w = (Send 500 "Server Error", w')
         ∧ store w' = store w
         ∧ ∀ w0, addSalary req (setStore [] w) = (Redirect "/salaries", w0) →
                 console w' = console w ++ [DuplicateKey id]).
Proof.
  split.
  - intros req w w' Hrun id.
    destruct (addSalary_success req w w' Hrun) as (u & Hu & Hok).
    cbv zeta in Hok. destruct Hok as (_ & _ & Hfree & ->).
    rewrite assemble_salaryObject_key in Hfree. fold id in Hfree.
    eexists. split; [reflexivity|].
    rewrite assemble_salaryObject_doc.
    split_and!; [done|apply SAL_nonempty|apply SAL_prefix|].
    intros e He Hid.
    assert (keyTaken (Some id) (store w) = true) as Htaken
      by (apply keyTaken_spec; eauto).
    congruence.
  - intros req w id Htaken.
    apply keyTaken_spec in Htaken.
    destruct (addSalary req w) as [r w'] eqn:Hrun.
    assert (r ≠ Redirect "/salaries") as Hr.
    { intros ->. destruct (addSalary_success req w w' Hrun) as (u & Hu & Hok).
      cbv zeta in Hok. destruct Hok as (_ & _ & Hfree & _).
      rewrite assemble_salaryObject_key in Hfree. fold id in Hfree.
      congruence. }
    destruct (addSalary_failure req w w' r Hrun Hr) as (-> & Hs & _).
    exists w'. split_and!; [done..|].
    intros w0 Hrun0.
    destruct (addSalary_success req _ w0 Hrun0) as (u & Hu & Hok).
    cbv zeta in Hok. destruct Hok as (Hvalid & Hup & _ & _).
    pose proof (addSalary_run req w u Hu) as Hrun'. cbv zeta in Hrun'.
    assert (Hif : ∀ (c : bool) (a b : World),
              (if c then setStore [] a else setStore [] b)
              = setStore [] (if c then a else b)) by (by intros []).
    rewrite !advance_setStore, Hif, !advance_setStore in Hvalid.
    change (time (setStore [] ?x)) with (time x) in Hvalid.
    change (dbUp (setStore [] w)) with (dbUp w) in Hup.
    rewrite (decide_True _ _ Hvalid), Hup, assemble_salaryObject_key in Hrun'.
    fold id in Hrun'. rewrite Htaken in Hrun'.
    rewrite Hrun' in Hrun. injection Hrun as <-.
    change (console (logError ?e ?x)) with (console x ++ [e]).
    destruct (Js.truthy _); by rewrite ?advance_console.
Qed.

End CreateClaims.

Lemma get_omitted (o : Js.object) (k : string) :
  o !! k = None → Js.get o k = Js.Undefined.
Proof. intros Hk. unfold Js.get. by rewrite Hk. Qed.

Section TypeAndDateClaims.
Context `{Mongoose}.

(** What the [type] path of the schema makes of a supplied value that the
    string caster does not read as one of the two enumerated values. *)
Lemma type_rejected (v : Js.value) (now : Z) :
  v ≠ Js.Undefined → v ≠ Js.Null →
  castString v ≠ CastTo "full" → castString v ≠ CastTo "advance" →
  (assign castString v "type").2 = {["type"]}
  ∨ validatePath (p_type salarySchema) nonEmptyString
      (applyDefault (p_type salarySchema) now (pathValue castString v)) = false.
Proof.
  intros Hu Hn Hfull Hadv.
  assert (Hset : setPath castString v =
            match castString v with
            | CastError => None
            | CastNull => Some NullV
            | CastTo a => Some (Val a)
            end) by (by destruct v).
  unfold pathValue, assign. rewrite Hset.
  destruct (castString v) as [| |s'] eqn:Hc.
  - by left.
  - by destruct (castString_value v).
  - right. simpl. unfold validatePath. simpl.
    apply bool_decide_eq_false. intros Hin.
    apply elem_of_cons in Hin as [->|Hin]; [done|].
    apply elem_of_cons in Hin as [->|Hin]; [done|].
    by apply elem_of_nil in Hin.
Qed.

(** C3, amended.  When the request body carries a [type] other than
    [null] (and [undefined]) that the schema's string caster does not read
    as ["full"] or ["advance"] - in particular any string other than these
    two - [addSalary] answers 500, logs one error and leaves the collection
    as it was; with a session user that error is the validation error, and
    it names the path [type].  A [type] of [null] is not turned into the
    default: if the create succeeds, the stored [type] is [null].  When the
    body has no [type], the document stored by a successful create has
    [type] ["full"]. *)
Theorem addSalary_type_enum_and_default :
  (∀ (req : Request) (w : World) (v : Js.value),
     Js.get (body req) "type" = v →
     v ≠ Js.Undefined → v ≠ Js.Null →
     castString v ≠ CastTo "full" → castString v ≠ CastTo "advance" →
     ∃ (w' : World) (err : Error),
       addSalary req w = (Send 500 "Server Error", w')
       ∧ store w' = store w
       ∧ console w' = console w ++ [err]
       ∧ (∀ u, session_user req = Some u →
            ∃ paths, err = ValidationError paths ∧ "type" ∈ paths))
  ∧ (∀ (req : Request) (w : World) (s : string),
       Js.get (body req) "type" = Js.Str s → s ≠ "full" → s ≠ "advance" →
       ∃ w' : World,
         addSalary req w = (Send 500 "Server Error", w')
         ∧ store w' = store w)
  ∧ (∀ (req : Request) (w w' : World),
       body req !! "type" = None →
       addSalary req w = (Redirect "/salaries", w') →
       ∃ d : Doc, store w' = store w ++ [d] ∧ type d = Val "full")
  ∧ (∀ (req : Request) (w w' : World),
       body req !! "type" = Some Js.Null →
       addSalary req w = (Redirect "/salaries", w') →
       ∃ d : Doc, store w' = store w ++ [d] ∧ type d = NullV).
Proof.
  assert (Hgen : ∀ (req : Request) (w : World) (v : Js.value),
     Js.get (body req) "type" = v →
     v ≠ Js.Undefined → v ≠ Js.Null →
     castString v ≠ CastTo "full" → castString v ≠ CastTo "advance" →
     ∃ (w' : World) (err : Error),
       addSalary req w = (Send 500 "Server Error", w')
       ∧ store w' = store w
       ∧ console w' = console w ++ [err]
       ∧ (∀ u, session_user req = Some u →
            ∃ paths, err = ValidationError paths ∧ "type" ∈ paths)).
  { intros req w v Hv Hu Hn Hfull Hadv.
    destruct (session_user req) as [u|] eqn:Hsess.
    - pose proof (addSalary_run req w u Hsess) as Hrun. cbv zeta in Hrun.
      rewrite Hv in Hrun.
      match type of Hrun with
      | context [validate ?b] => set (built := b) in *
      end.
      assert ("type" ∈ validate built) as Hin.
      { destruct (type_rejected v (time (advance (advance
            (if Js.truthy (Js.get (body req) "date") then advance w
             else advance (advance w))))) Hu Hn Hfull Hadv) as [Hc|Hc].
        - apply elem_of_validate_castErrors. subst built.
          rewrite assemble_salaryObject_errors, Hc.
          rewrite !elem_of_union, elem_of_singleton. tauto.
        - apply elem_of_validate_type. subst built.
          by rewrite assemble_salaryObject_doc. }
      rewrite decide_False in Hrun
        by (intros Hempty; rewrite Hempty in Hin; by apply elem_of_empty in Hin).
      eexists _, _. split; [exact Hrun|].
      split_and!.
      + simpl. destruct (Js.truthy _); by rewrite ?advance_store.
      + simpl. destruct (Js.truthy _); by rewrite ?advance_console.
      + intros u' _. eexists. split; [reflexivity|exact Hin].
    - destruct (addSalary_no_session req w Hsess) as [_ Hrun].
      cbv zeta in Hrun. eexists _, _. split; [exact Hrun|].
      split_and!.
      + simpl. destruct (Js.truthy _); by rewrite ?advance_store.
      + simpl. destruct (Js.truthy _); by rewrite ?advance_console.
      + intros u' Hu'. discriminate. }
  split_and!.
  - exact Hgen.
  - intros req w s Hv Hfull Hadv.
    destruct (Hgen req w (Js.Str s) Hv) as (w' & err & Hrun & Hs & _);
      [done|done|rewrite castString_Str; congruence
      |rewrite castString_Str; congruence|].
    eauto.
  - intros req w w' Hnone Hrun.
    destruct (addSalary_success req w w' Hrun) as (u & Hu & Hok).
    cbv zeta in Hok. destruct Hok as (_ & _ & _ & ->).
    eexists. split; [reflexivity|].
    rewrite assemble_salaryObject_doc. simpl.
    by rewrite (get_omitted _ _ Hnone).
  - intros req w w' Hnull Hrun.
    destruct (addSalary_success req w w' Hrun) as (u & Hu & Hok).
    cbv zeta in Hok. destruct Hok as (_ & _ & _ & ->).
    eexists. split; [reflexivity|].
    rewrite assemble_salaryObject_doc. simpl.
    unfold Js.get. by rewrite Hnull.
Qed.

(** C6.  When the request body has no [date], the document stored by a
    successful create has a [date] value, namely the clock reading of
    [new Date()] - the second reading of the handler - which is not before
    the time at which the handler was entered. *)
Theorem addSalary_date_defaults_to_now (req : Request) (w w' : World) :
  body req !! "date" = None →
  addSalary req w = (Redirect "/salaries", w') →
  ∃ (d : Doc) (t : Z),
    store w' = store w ++ [d]
    ∧ date d = Val t
    ∧ t = time (advance (advance w))
    ∧ (time w ≤ t)%Z.
Proof.
  intros Hnone Hrun.
  destruct (addSalary_success req w w' Hrun) as (u & Hu & Hok).
  cbv zeta in Hok. destruct Hok as (_ & _ & _ & ->).
  rewrite (get_omitted _ _ Hnone). simpl Js.truthy. cbv iota.
  eexists _, (time (advance (advance w))). split; [reflexivity|].
  rewrite assemble_salaryObject_doc. simpl date.
  split_and!.
  - unfold pathValue, assign, setPath. by rewrite castDate_Date.
  - done.
  - pose proof (advance_time w). pose proof (advance_time (advance w)). lia.
Qed.

(** C9.  [addSalary] depends on the request body only through
    [employeeName], [amount], [type], [date] and [notes]: two requests with
    the same session user whose bodies agree on these five properties give
    the same response and the same world, whatever else the bodies hold.
    On success the stored [salaryId] is the clock stamp and the stored
    [recordedBy] is what the session user's name casts to. *)
Theorem addSalary_reads_only_five_body_fields :
  (∀ (req1 req2 : Request) (w : World),
     session_user req1 = session_user req2 →
     (∀ k, k ∈ ["employeeName"; "amount"; "type"; "date"; "notes"] →
           Js.get (body req1) k = Js.get (body req2) k) →
     addSalary req1 w = addSalary req2 w)
  ∧ (∀ (req : Request) (w w' : World),
       addSalary req w = (Redirect "/salaries", w') →
       ∃ (d : Doc) (u : User),
         session_user req = Some u
         ∧ store w' = store w ++ [d]
         ∧ salaryId d = Val ("SAL" +:+ pretty (time (advance w)))
         ∧ recordedBy d = pathValue castString (name u)
         ∧ createdAt d = Val (time w')).
Proof.
  split.
  - intros req1 req2 w Hsess Hbody.
    assert (Hf : salaryFields req1 w = salaryFields req2 w).
    { rewrite !salaryFields_run. cbv zeta. rewrite Hsess.
      rewrite (Hbody "employeeName"), (Hbody "amount"), (Hbody "type"),
        (Hbody "date"), (Hbody "notes") by set_solver.
      reflexivity. }
    unfold addSalary, tryCatch. unfold mbind at 1 3, M_bind at 1 3.
    by rewrite Hf.
  - intros req w w' Hrun.
    destruct (addSalary_success req w w' Hrun) as (u & Hu & Hok).
    cbv zeta in Hok. destruct Hok as (_ & _ & _ & ->).
    eexists _, u. split; [done|]. split; [reflexivity|].
    by rewrite assemble_salaryObject_doc.
Qed.

(** C10.  Without a session user [addSalary] throws while it evaluates the
    object literal - before [new Salary] and [save] are reached - so it
    answers 500, logs that type error, and the collection is as it was;
    this holds whatever the body contains. *)
Theorem addSalary_without_session_user (req : Request) (w : World) :
  session_user req = None →
  ∃ w1 : World,
    salaryFields req w = (inl noSessionUser, w1)
    ∧ addSalary req w = (Send 500 "Server Error", logError noSessionUser w1)
    ∧ store (logError noSessionUser w1) = store w
    ∧ dbUp (logError noSessionUser w1) = dbUp w
    ∧ console (logError noSessionUser w1) = console w ++ [noSessionUser].
Proof.
  intros Hu. destruct (addSalary_no_session req w Hu) as [Hf Hrun].
  cbv zeta in Hf, Hrun. eexists. split; [exact Hf|]. split; [exact Hrun|].
  simpl. destruct (Js.truthy _);
    by rewrite ?advance_store, ?advance_dbUp, ?advance_console.
Qed.

End TypeAndDateClaims.

(** ** Deleting *)

Lemma removeFirst_miss (p : Doc → bool) (l : list Doc) :
  (∀ d, d ∈ l → p d = false) → removeFirst p l = (None, l).
Proof.
  induction l as [|d l IH]; intros Hall; [done|]. simpl.
  rewrite (Hall d) by (apply elem_of_cons; by left).
  rewrite IH; [done|]. intros e He. apply Hall, elem_of_cons. by right.
Qed.

Lemma removeFirst_hit (p : Doc → bool) (l : list Doc) :
  (∃ d, d ∈ l ∧ p d = true) →
  ∃ l1 d l2, l = l1 ++ d :: l2 ∧ p d = true ∧ (∀ e, e ∈ l1 → p e = false)
             ∧ removeFirst p l = (Some d, l1 ++ l2).
Proof.
  induction l as [|x l IH]; intros (d & Hin & Hp).
  - by apply elem_of_nil in Hin.
  - simpl. destruct (p x) eqn:Hx.
    + exists [], x, l. split_and!; try done. intros e He. by apply elem_of_nil in He.
    + apply elem_of_cons in Hin as [->|Hin]; [congruence|].
      destruct IH as (l1 & y & l2 & -> & Hy & Hl1 & Hrm); [by eauto|].
      exists (x :: l1), y, l2. rewrite Hrm. split_and!; try done.
      intros e He. apply elem_of_cons in He as [->|He]; auto.
Qed.

Lemma filter_keeps_all {A} (P : A → Prop) `{∀ x, Decision (P x)} (l : list A) :
  (∀ x, x ∈ l → P x) → filter P l = l.
Proof.
  induction l as [|x l IH]; intros Hall; [done|].
  rewrite filter_cons_True by (apply Hall, elem_of_cons; by left).
  f_equal. apply IH. intros y Hy. apply Hall, elem_of_cons. by right.
Qed.

(** C4.  When no document carries the requested [salaryId], [deleteSalary]
    redirects to the list page and changes nothing: the collection is the
    same and nothing is logged.  More generally, whenever the driver
    reaches the collection the handler redirects, match or no match; the
    only error it can log is the driver's. *)
Theorem deleteSalary_miss_is_silent :
  (∀ (req : Request) (w : World),
     dbUp w = true →
     (∀ d, d ∈ store w → salaryId d ≠ Val (params_id req)) →
     deleteSalary req w = (Redirect "/salaries", w))
  ∧ (∀ (req : Request) (w : World),
       dbUp w = true → (deleteSalary req w).1 = Redirect "/salaries"
                       ∧ console (deleteSalary req w).2 = console w)
  ∧ (∀ (req : Request) (w : World),
       dbUp w = false →
       deleteSalary req w = (Send 500 "Server Error", logError StoreUnavailable w)).
Proof.
  split_and!.
  - intros req w Hup Hmiss.
    unfold deleteSalary, tryCatch, mbind, M_bind, findOneAndDelete.
    rewrite Hup, removeFirst_miss.
    + by destruct w.
    + intros d Hd. apply bool_decide_eq_false. by apply Hmiss.
  - intros req w Hup.
    unfold deleteSalary, tryCatch, mbind, M_bind, findOneAndDelete.
    rewrite Hup. by destruct (removeFirst _ _).
  - intros req w Hdown.
    unfold deleteSalary, tryCatch, mbind, M_bind, findOneAndDelete.
    by rewrite Hdown.
Qed.

(** C5.  When some document carries the requested [salaryId],
    [deleteSalary] redirects and the collection it leaves is the old one
    without one document with that id - the first: the documents before and
    after it stay, in their order, the collection is one shorter, and
    nothing else of the world changes.  Under the unique index no document
    with that id is left, so exactly the documents with another id
    remain. *)
Theorem deleteSalary_removes_exactly_one (req : Request) (w : World) :
  dbUp w = true →
  (∃ d, d ∈ store w ∧ salaryId d = Val (params_id req)) →
  ∃ (before : list Doc) (d : Doc) (after : list Doc),
    store w = before ++ d :: after
    ∧ salaryId d = Val (params_id req)
    ∧ (∀ e, e ∈ before → salaryId e ≠ Val (params_id req))
    ∧ (deleteSalary req w).1 = Redirect "/salaries"
    ∧ store (deleteSalary req w).2 = before ++ after
    ∧ (length (store (deleteSalary req w).2) + 1 = length (store w))%nat
    ∧ dbUp (deleteSalary req w).2 = dbUp w
    ∧ console (deleteSalary req w).2 = console w
    ∧ (uniqueIds (store w) →
         (∀ e, e ∈ store (deleteSalary req w).2 →
               salaryId e ≠ Val (params_id req))
         ∧ store (deleteSalary req w).2 =
             filter (λ e, salaryId e ≠ Val (params_id req)) (store w)).
Proof.
  intros Hup (d0 & Hin & Hid).
  destruct (removeFirst_hit
              (λ d, bool_decide (salaryId d = Val (params_id req))) (store w))
    as (l1 & d & l2 & Hsplit & Hd & Hl1 & Hrm).
  { exists d0. split; [done|]. by apply bool_decide_eq_true. }
  apply bool_decide_eq_true in Hd.
  assert (Hbefore : ∀ e, e ∈ l1 → salaryId e ≠ Val (params_id req)).
  { intros e He. specialize (Hl1 e He). by apply bool_decide_eq_false in Hl1. }
  assert (Hrun : deleteSalary req w
                 = (Redirect "/salaries", setStore (l1 ++ l2) w)).
  { unfold deleteSalary, tryCatch, mbind, M_bind, findOneAndDelete.
    by rewrite Hup, Hrm. }
  assert (Hstore : store (deleteSalary req w).2 = l1 ++ l2)
    by (by rewrite Hrun).
  exists l1, d, l2. rewrite Hstore.
  split_and!; try done.
  - by rewrite Hrun.
  - rewrite Hsplit, !length_app. simpl. lia.
  - by rewrite Hrun.
  - by rewrite Hrun.
  - intros Huniq. unfold uniqueIds in Huniq.
    rewrite Hsplit, fmap_app, fmap_cons in Huniq.
    apply NoDup_app in Huniq as (_ & Hdisj & Hnd).
    apply NoDup_cons in Hnd as [Hnotin _].
    assert (Hafter : ∀ e, e ∈ l2 → salaryId e ≠ Val (params_id req)).
    { intros e He Heq. apply Hnotin.
      apply list_elem_of_fmap. exists e. split; [|done].
      apply indexKey_Some in Heq, Hd. congruence. }
    split.
    + intros e He. apply elem_of_app in He as [He|He]; auto.
    + rewrite Hsplit, filter_app, filter_cons_False by (intros Hne; by apply Hne).
      f_equal; symmetry; by apply filter_keeps_all.
Qed.

(** ** The collection under the handlers *)

Lemma keyTaken_false (k : option string) (s : list Doc) :
  keyTaken k s = false → k ∉ indexKey <$> s.
Proof.
  intros Hfree Hin. apply list_elem_of_fmap in Hin as (e & -> & He).
  assert (keyTaken (indexKey e) s = true) as Htaken; [|congruence].
  unfold keyTaken. apply existsb_exists. exists e.
  split; [by apply list_elem_of_In|]. by apply bool_decide_eq_true.
Qed.

Lemma removeFirst_keys (p : Doc → bool) (l : list Doc) :
  (indexKey <$> (removeFirst p l).2) `sublist_of` (indexKey <$> l).
Proof.
  induction l as [|d l IH]; simpl; [constructor|].
  destruct (p d); simpl.
  - by apply sublist_cons.
  - destruct (removeFirst p l) as [r l']. simpl in *. by apply sublist_skip.
Qed.

(** When the driver cannot reach the collection, listing answers 500. *)
Lemma getSalaries_store_failure (req : Request) (w : World) :
  dbUp w = false →
  getSalaries req w = (Send 500 "Server Error", logError StoreUnavailable w).
Proof.
  intros Hdown. unfold getSalaries, tryCatch, find, mbind, M_bind.
  by rewrite Hdown.
Qed.

(** The unique index is an invariant of the three handlers. *)
Lemma getSalaries_uniqueIds (req : Request) (w : World) :
  uniqueIds (store w) → uniqueIds (store (getSalaries req w).2).
Proof.
  intros Hu. unfold getSalaries, tryCatch, find, mbind, M_bind.
  by destruct (dbUp w).
Qed.

Lemma addSalary_uniqueIds `{Mongoose} (req : Request) (w : World) :
  uniqueIds (store w) → uniqueIds (store (addSalary req w).2).
Proof.
  intros Hu. destruct (addSalary req w) as [r w'] eqn:Hrun. simpl.
  assert (r = Redirect "/salaries" ∨ r ≠ Redirect "/salaries") as [->|Hr].
  { destruct r as [| url |]; [by right| |by right].
    destruct (decide (url = "/salaries")) as [->|]; [by left|].
    right. congruence. }
  - destruct (addSalary_success req w w' Hrun) as (u & _ & Hok).
    cbv zeta in Hok. destruct Hok as (_ & _ & Hfree & ->). simpl.
    unfold uniqueIds. rewrite fmap_app. apply NoDup_app. split_and!.
    + done.
    + intros k Hk Hin. apply list_elem_of_singleton in Hin as ->.
      by apply keyTaken_false in Hfree.
    + apply NoDup_singleton.
  - destruct (addSalary_failure req w w' r Hrun Hr) as (_ & -> & _). done.
Qed.

Lemma deleteSalary_uniqueIds (req : Request) (w : World) :
  uniqueIds (store w) → uniqueIds (store (deleteSalary req w).2).
Proof.
  intros Hu. unfold deleteSalary, tryCatch, findOneAndDelete, mbind, M_bind.
  destruct (dbUp w); [|done].
  pose proof (removeFirst_keys
                (λ d, bool_decide (salaryId d = Val (params_id req))) (store w)) as Hsub.
  destruct (removeFirst _ _) as [r l']. simpl in *.
  by eapply sublist_NoDup.
Qed.

(** ** Connection manager *)

Import Server.

Lemma settle_pending (p : nat) (o : Outcome) (s : State) (uri : string) :
  attempts s !! p = Some (uri, None) →
  attempts (settle p o s) !! p = Some (uri, Some o)
  ∧ readyState (settle p o s)
    = match o with Resolve _ => Connected | Reject => Disconnected end
  ∧ cached_conn (settle p o s) = cached_conn s
  ∧ cached_promise (settle p o s) = cached_promise s.
Proof.
  intros Hp. unfold settle. rewrite Hp. simpl. split_and!; try done.
  apply list_lookup_insert_eq. by eapply lookup_lt_Some.
Qed.

(** A call that returns a handle has stored it in the cache. *)
Lemma resume_caches (k : Cont) (s s' : State) (h : Handle) :
  resume k s = Some (Done (Conn h), s') → cached_conn s' = Some h.
Proof.
  destruct k as [p v|[uri|]|p]; simpl.
  - destruct (attempts s !! p) as [[? [[h'|]|]]|]; try done.
    + by intros [= <- <-].
    + destruct v; [done|]. unfold inMemoryBranch, fallback. simpl.
      by destruct (memoryServers s).
  - done.
  - done.
  - destruct (attempts s !! p) as [[? [[h'|]|]]|]; try done.
    by intros [= <- <-].
Qed.

Lemma run_caches (fuel : nat) (outs : list Outcome) (st : Step) (s s' : State)
    (h : Handle) :
  (∀ h', st = Done (Conn h') → cached_conn s = Some h') →
  run fuel outs st s = Some (Conn h, s') → cached_conn s' = Some h.
Proof.
  revert outs st s. induction fuel as [|fuel IH]; intros outs st s Hst Hrun.
  - destruct st as [r|k]; [|done]. simpl in Hrun. injection Hrun as -> ->. auto.
  - destruct st as [r|k].
    + simpl in Hrun. injection Hrun as -> ->. auto.
    + simpl in Hrun.
      destruct (match awaited k with
                | Some p => match attempts s !! p with
                            | Some (_, None) => (settle p (hd Reject outs) s, tl outs)
                            | _ => (s, outs)
                            end
                | None => (s, outs)
                end) as [s1 outs1].
      destruct (resume k s1) as [[st' s2]|] eqn:Hres; [|done].
      apply (IH outs1 st' s2); [|done].
      intros h' ->. by eapply resume_caches.
Qed.

(** Two calls made one after the other before the connection is there, with
    a configured URI: one call of [mongoose.connect], and both wait for its
    promise. *)
Lemma connectDB_twice_one_attempt (s : State) :
  cached_conn s = None → Js.env_truthy (MONGODB_URI s) = true →
  cached_promise s = None →
  ∃ (k1 k2 : Cont) (s1 : State),
    connectDB s = (Suspended k1, s1)
    ∧ connectDB s1 = (Suspended k2, s1)
    ∧ awaited k1 = Some (length (attempts s))
    ∧ awaited k2 = Some (length (attempts s))
    ∧ length (attempts s1) = S (length (attempts s)).
Proof.
  intros Hc Huri Hp. unfold connectDB at 1. rewrite Hc, Huri, Hp. simpl.
  eexists _, _, _. split; [reflexivity|]. split_and!.
  - unfold connectDB. simpl. rewrite Hc, Huri. simpl. reflexivity.
  - reflexivity.
  - reflexivity.
  - simpl. rewrite length_app. simpl. lia.
Qed.

(** C7.  Once a call of [connectDB] has come back with a handle, the handle
    is in the cache, and from then on every call returns that handle at
    once - no [await], no call of [mongoose.connect], no change of state.
    Before that, the attempt itself is cached: the call that starts an
    attempt stores its promise in [cached.promise] before waiting for it,
    and a call that finds a cached promise and a configured URI waits for
    that same promise and starts no attempt. *)
Theorem connectDB_memoizes :
  (∀ (s : State) (h : Handle),
     cached_conn s = Some h → connectDB s = (Done (Conn h), s))
  ∧ (∀ (outs : list Outcome) (s s' : State) (h : Handle),
       awaitConnectDB outs s = Some (Conn h, s') →
       cached_conn s' = Some h
       ∧ ∀ n : nat,
           connectDB (Nat.iter n (λ x, (connectDB x).2) s') = (Done (Conn h), s'))
  ∧ (∀ (s : State) (p : nat),
       cached_conn s = None → Js.env_truthy (MONGODB_URI s) = true →
       cached_promise s = Some p →
       connectDB s = (Suspended (AfterConnect p (onVercel s)), s))
  ∧ (∀ (s : State) (uri : string),
       cached_conn s = None → MONGODB_URI s = Some uri →
       Js.env_truthy (MONGODB_URI s) = true → cached_promise s = None →
       ∃ s' : State,
         connectDB s
         = (Suspended (AfterConnect (length (attempts s)) (onVercel s)), s')
         ∧ cached_promise s' = Some (length (attempts s))
         ∧ attempts s' = attempts s ++ [(uri, None)])
  ∧ (∀ (s s' : State) (created : string) (st : Step),
       resume (AfterCreate (Some created)) s = Some (st, s') →
       st = Suspended (AfterFallbackConnect (length (attempts s)))
       ∧ cached_promise s' = Some (length (attempts s))
       ∧ attempts s' = attempts s ++ [(created, None)]).
Proof.
  assert (Hhit : ∀ (s : State) (h : Handle),
            cached_conn s = Some h → connectDB s = (Done (Conn h), s)).
  { intros s h Hc. unfold connectDB. by rewrite Hc. }
  split_and!.
  - exact Hhit.
  - intros outs s s' h Hrun.
    assert (cached_conn s' = Some h) as Hc.
    { unfold awaitConnectDB in Hrun.
      destruct (connectDB s) as [st s0] eqn:Hstart.
      apply (run_caches 3 outs st s0 s' h); [|done].
      intros h' ->. unfold connectDB in Hstart.
      destruct (cached_conn s) as [h0|] eqn:Hc0.
      - by injection Hstart as -> <-.
      - destruct (negb _ && _); [done|].
        destruct (Js.env_truthy _).
        + destruct (cached_promise s); [done|]. by destruct (mongooseConnect _ _).
        + unfold inMemoryBranch, fallback in Hstart.
          destruct (negb _); [|done]. by destruct (memoryServers s). }
    split; [done|]. intros n.
    assert (Nat.iter n (λ x, (connectDB x).2) s' = s') as ->.
    { induction n as [|n IH]; [done|]. simpl. rewrite IH.
      by rewrite (Hhit s' h Hc). }
    by apply Hhit.
  - intros s p Hc Huri Hp. unfold connectDB, onVercel.
    by rewrite Hc, Huri, Hp.
  - intros s uri Hc Huri Htruthy Hp. unfold connectDB, onVercel.
    rewrite Hc, Htruthy, Hp, Huri. simpl. eauto.
  - intros s s' created st Hres. simpl in Hres. by injection Hres as <- <-.
Qed.

(** ** Database guard *)

(** On Vercel a call of [connectDB] always comes back, after at most one
    [await]. *)
Lemma awaitConnectDB_onVercel (outs : list Outcome) (s : State) :
  wf s → onVercel s = true →
  ∃ (r : Result) (s' : State), awaitConnectDB outs s = Some (r, s').
Proof.
  intros Hwf Hv. unfold awaitConnectDB, connectDB. unfold onVercel in Hv.
  destruct (cached_conn s) as [h|]; [simpl; eauto|].
  rewrite Hv. rewrite andb_true_r.
  destruct (Js.env_truthy (MONGODB_URI s)) eqn:Huri; simpl; [|eauto].
  assert (Hgo : ∀ (p : nat) (s0 : State),
            (p < length (attempts s0))%nat →
            ∃ r s', run 3 outs (Suspended (AfterConnect p true)) s0 = Some (r, s')).
  { intros p s0 Hp. apply lookup_lt_is_Some in Hp as [[uri o] Hlk].
    simpl. rewrite Hlk. destruct o as [o|].
    - rewrite Hlk. destruct o; simpl; eauto.
    - destruct (settle_pending p (hd Reject outs) s0 uri Hlk) as (Hlk' & _).
      rewrite Hlk'. destruct (hd Reject outs); simpl; eauto. }
  destruct (cached_promise s) as [p|] eqn:Hp.
  - apply Hgo. by apply Hwf.
  - apply Hgo. simpl. rewrite length_app. simpl. lia.
Qed.

(** C8, as stated, fails on a cold start: the request arrives on Vercel
    while the first attempt is in flight ([readyState] 2); the guard waits
    for [connectDB], the attempt succeeds, and the request is forwarded, not
    answered with 503. *)
Lemma dbGuard_cold_start_forwards :
  onVercel coldStart = true
  ∧ readyState coldStart ≠ Connected
  ∧ guardStart coldStart = AwaitingConnectDB
  ∧ connectDB coldStart = (Suspended (AfterConnect 0 true), coldStart)
  ∧ (∃ s', dbGuard [Resolve 7%nat] coldStart = Some (Next, s')
           ∧ readyState s' = Connected)
  ∧ ¬ (∀ (outs : list Outcome) (s : State),
         onVercel s = true → readyState s ≠ Connected →
         ∃ s', dbGuard outs s = Some (Respond 503 "Setup Required", s')).
Proof.
  split_and!; try done.
  - eexists. split; reflexivity.
  - intros Hall.
    destruct (Hall [Resolve 7%nat] coldStart) as (s' & Hs'); done.
Qed.

(** C8, amended.  On Vercel, a request that arrives while the connection
    is not established gets a verdict from the guard.  The guard waits for
    [connectDB] exactly when an attempt is in flight ([readyState] 2) - the
    state it then decides in is the one that call of [connectDB] leaves -
    and otherwise decides at once.  If the connection is still not
    established when it decides, the request is answered with 503 "Setup
    Required" and not forwarded; if the wait has established it, the request
    is forwarded: a request that finds the cached attempt pending is
    forwarded when that attempt succeeds and answered 503 when it fails.
    Outside Vercel every request is forwarded. *)
Theorem dbGuard_verdict :
  (∀ (outs : list Outcome) (s : State),
     wf s → onVercel s = true → readyState s ≠ Connected →
     ∃ (v : Verdict) (s' : State),
       dbGuard outs s = Some (v, s')
       ∧ (readyState s' ≠ Connected → v = Respond 503 "Setup Required")
       ∧ (readyState s' = Connected → v = Next)
       ∧ (readyState s ≠ Connecting →
            s' = s ∧ v = Respond 503 "Setup Required")
       ∧ (readyState s = Connecting →
            guardStart s = AwaitingConnectDB
            ∧ ∃ r : Result, awaitConnectDB outs s = Some (r, s')))
  ∧ (∀ (outs : list Outcome) (s : State) (p : nat) (uri : string) (h : Handle),
       onVercel s = true → readyState s = Connecting →
       cached_conn s = None → Js.env_truthy (MONGODB_URI s) = true →
       cached_promise s = Some p → attempts s !! p = Some (uri, None) →
       dbGuard (Resolve h :: outs) s
       = Some (Next, setConn h (settle p (Resolve h) s))
       ∧ readyState (setConn h (settle p (Resolve h) s)) = Connected
       ∧ dbGuard (Reject :: outs) s
         = Some (Respond 503 "Setup Required", settle p Reject s)
       ∧ readyState (settle p Reject s) = Disconnected)
  ∧ (∀ (outs : list Outcome) (s : State),
       onVercel s = false → dbGuard outs s = Some (Next, s)).
Proof.
  split_and!.
  - intros outs s Hwf Hv Hrs. unfold onVercel in Hv.
    assert (Hgate : negb (Js.env_truthy (VERCEL s))
                    && negb (Js.env_truthy (VERCEL_ENV s)) = false).
    { destruct (Js.env_truthy (VERCEL s)), (Js.env_truthy (VERCEL_ENV s)); done. }
    unfold dbGuard, guardStart. rewrite Hgate.
    rewrite (bool_decide_eq_false_2 _ Hrs).
    destruct (decide (readyState s = Connecting)) as [Hc|Hc].
    + rewrite (bool_decide_eq_true_2 _ Hc).
      destruct (awaitConnectDB_onVercel outs s Hwf) as (r & s' & Hrun); [done|].
      rewrite Hrun. exists (guardResume s'), s'.
      split_and!; try done.
      * intros Hne. unfold guardResume, lastCheck.
        by rewrite (bool_decide_eq_false_2 _ Hne), (bool_decide_eq_true_2 _ Hne).
      * intros Heq. unfold guardResume. by rewrite (bool_decide_eq_true_2 _ Heq).
      * intros _. split; [done|]. by exists r.
    + rewrite (bool_decide_eq_false_2 _ Hc).
      exists (lastCheck s), s.
      assert (lastCheck s = Respond 503 "Setup Required") as Hlast.
      { unfold lastCheck. by rewrite (bool_decide_eq_true_2 _ Hrs). }
      split_and!; try done.
  - intros outs s p uri h Hv Hrs Hc Huri Hp Hlk. unfold onVercel in Hv.
    assert (Hgate : negb (Js.env_truthy (VERCEL s))
                    && negb (Js.env_truthy (VERCEL_ENV s)) = false).
    { destruct (Js.env_truthy (VERCEL s)), (Js.env_truthy (VERCEL_ENV s)); done. }
    assert (Hstart : guardStart s = AwaitingConnectDB).
    { unfold guardStart. rewrite Hgate, Hrs. reflexivity. }
    assert (Hcall : connectDB s = (Suspended (AfterConnect p true), s)).
    { unfold connectDB. by rewrite Hc, Huri, Hv, Hp. }
    assert (Hwait : ∀ o, awaitConnectDB (o :: outs) s
              = Some (match o with
                      | Resolve h' => (Conn h', setConn h' (settle p o s))
                      | Reject => (RNull, settle p o s)
                      end)).
    { intros o. unfold awaitConnectDB. rewrite Hcall.
      cbn [run awaited]. rewrite Hlk. cbn [hd tl resume].
      destruct (settle_pending p o s uri Hlk) as (Hlk' & _).
      rewrite Hlk'. by destruct o. }
    destruct (settle_pending p (Resolve h) s uri Hlk) as (_ & Hok & _).
    destruct (settle_pending p Reject s uri Hlk) as (_ & Hko & _).
    unfold dbGuard. rewrite Hstart, !Hwait.
    unfold guardResume, lastCheck.
    change (readyState (setConn h ?x)) with (readyState x).
    rewrite Hok, Hko. done.
  - intros outs s Hv. unfold onVercel in Hv.
    apply orb_false_iff in Hv as [Hv1 Hv2].
    unfold dbGuard, guardStart. by rewrite Hv1, Hv2.
Qed.

(** ** Worked instances *)

Import Sample.

Lemma getSalaries_lists_all_by_date_desc_witness :
  dbUp threePaid = true
  ∧ ∃ listed : list Doc,
      getSalaries (deleteRequest "") threePaid
      = (Render "pages/salaries"
           {| title := "Salaries"; salaries := listed;
              user := Some clerk; path := "/salaries" |}, threePaid)
      ∧ length listed = 3%nat.
Proof.
  split; [reflexivity|].
  destruct (getSalaries_lists_all_by_date_desc (deleteRequest "") threePaid eq_refl)
    as (listed & Hrun & _ & Hlen & _).
  exists listed. split; [exact Hrun|exact Hlen].
Defined.

Example getSalaries_threePaid :
  (getSalaries (deleteRequest "") threePaid).1
  = Render "pages/salaries"
      {| title := "Salaries";
         salaries := [paid "SAL30" "Alice" 30; paid "SAL20" "Chao" 20;
                      paid "SAL10" "Brian" 10];
         user := Some clerk; path := "/salaries" |}.
Proof. vm_compute. reflexivity. Qed.

Example addSalary_createAlice :
  @addSalary sampleMongoose createAlice emptyWorld
  = (Redirect "/salaries",
     {| store := [{| salaryId := Val "SAL1700000000001";
                     employeeName := Val "Alice";
                     amount := Val (Q2Qc (inject_Z 500));
                     type := Val "advance";
                     date := Val 1700000000001;
                     notes := Unset;
                     recordedBy := Val "Wanjiru";
                     createdAt := Val 1700000000003 |}];
        dbUp := true; time := 1700000000003; ticks := []; console := [] |}).
Proof. vm_compute. reflexivity. Qed.

Lemma addSalary_salaryId_generated_and_unique_witness :
  ∃ w' : World,
    @addSalary sampleMongoose createAlice emptyWorld = (Redirect "/salaries", w')
    ∧ (∃ d : Doc, store w' = store emptyWorld ++ [d]
                  ∧ salaryId d = Val "SAL1700000000001")
    ∧ (∃ e, e ∈ store sameMillisecond ∧ salaryId e = Val "SAL40")
    ∧ ∃ w'' : World,
        @addSalary sampleMongoose createAlice sameMillisecond
        = (Send 500 "Server Error", w'')
        ∧ store w'' = store sameMillisecond.
Proof.
  pose proof (@addSalary_salaryId_generated_and_unique sampleMongoose)
    as [Hfresh Hclash].
  eexists. split; [vm_compute; reflexivity|]. split.
  - destruct (Hfresh createAlice emptyWorld _ addSalary_createAlice)
      as (d & Hstore & Hid & _).
    exists d. split; [exact Hstore|exact Hid].
  - assert (∃ e, e ∈ store sameMillisecond ∧ salaryId e = Val "SAL40") as Hin.
    { exists (paid "SAL40" "Alice" 40). split; [|reflexivity].
      apply elem_of_cons. by left. }
    split; [exact Hin|].
    destruct (Hclash createAlice sameMillisecond Hin) as (w'' & Hrun & Hstore & _).
    exists w''. split; [exact Hrun|exact Hstore].
Defined.

Lemma addSalary_type_enum_and_default_witness :
  (Js.get (body createBonus) "type" = Js.Str "bonus"
   ∧ ∃ w' : World,
       @addSalary sampleMongoose createBonus emptyWorld
       = (Send 500 "Server Error", w')
       ∧ store w' = store emptyWorld)
  ∧ (body createPlain !! "type" = None
     ∧ ∃ (w' : World) (d : Doc),
         @addSalary sampleMongoose createPlain emptyWorld
         = (Redirect "/salaries", w')
         ∧ store w' = store emptyWorld ++ [d] ∧ type d = Val "full").
Proof.
  pose proof (@addSalary_type_enum_and_default sampleMongoose)
    as (_ & Hstr & Hdefault & _).
  split.
  - split; [reflexivity|].
    apply (Hstr createBonus emptyWorld "bonus"); [reflexivity|done|done].
  - split; [reflexivity|].
    eexists. 
    assert (Hrun : @addSalary sampleMongoose createPlain emptyWorld
                   = (Redirect "/salaries",
                      (@addSalary sampleMongoose createPlain emptyWorld).2))
      by (vm_compute; reflexivity).
    destruct (Hdefault createPlain emptyWorld _ eq_refl Hrun) as (d & Hs & Ht).
    exists d. split; [exact Hrun|]. split; [exact Hs|exact Ht].
Defined.

Lemma deleteSalary_miss_is_silent_witness :
  dbUp threePaid = true
  ∧ (∀ d, d ∈ store threePaid → salaryId d ≠ Val "SAL99")
  ∧ deleteSalary (deleteRequest "SAL99") threePaid
    = (Redirect "/salaries", threePaid).
Proof.
  assert (∀ d, d ∈ store threePaid → salaryId d ≠ Val "SAL99") as Hmiss.
  { intros d Hd. simpl in Hd.
    repeat (apply elem_of_cons in Hd as [->|Hd]; [discriminate|]).
    by apply elem_of_nil in Hd. }
  split; [reflexivity|]. split; [exact Hmiss|].
  exact (proj1 deleteSalary_miss_is_silent (deleteRequest "SAL99") threePaid
           eq_refl Hmiss).
Defined.

Lemma deleteSalary_removes_exactly_one_witness :
  dbUp threePaid = true
  ∧ (∃ d, d ∈ store threePaid ∧ salaryId d = Val "SAL10")
  ∧ ∃ (before : list Doc) (d : Doc) (after : list Doc),
      store threePaid = before ++ d :: after
      ∧ (deleteSalary (deleteRequest "SAL10") threePaid).1
        = Redirect "/salaries"
      ∧ store (deleteSalary (deleteRequest "SAL10") threePaid).2
        = before ++ after
      ∧ (length (store (deleteSalary (deleteRequest "SAL10") threePaid).2) + 1
         = 3)%nat.
Proof.
  assert (∃ d, d ∈ store threePaid ∧ salaryId d = Val "SAL10") as Hin.
  { exists (paid "SAL10" "Brian" 10). split; [|reflexivity].
    apply elem_of_cons. right. apply elem_of_cons. by left. }
  split; [reflexivity|]. split; [exact Hin|].
  destruct (deleteSalary_removes_exactly_one (deleteRequest "SAL10") threePaid
              eq_refl Hin)
    as (l1 & d & l2 & Hsplit & _ & _ & Hresp & Hstore & Hlen & _).
  exists l1, d, l2. split; [exact Hsplit|]. split; [exact Hresp|].
  split; [exact Hstore|exact Hlen].
Defined.

Example deleteSalary_threePaid :
  (deleteSalary (deleteRequest "SAL10") threePaid).1 = Redirect "/salaries"
  ∧ store (deleteSalary (deleteRequest "SAL10") threePaid).2
    = [paid "SAL30" "Alice" 30; paid "SAL20" "Chao" 20].
Proof. vm_compute. done. Qed.

Lemma addSalary_date_defaults_to_now_witness :
  body createAlice !! "date" = None
  ∧ ∃ (w' : World) (d : Doc) (t : Z),
      @addSalary sampleMongoose createAlice emptyWorld
      = (Redirect "/salaries", w')
      ∧ store w' = store emptyWorld ++ [d]
      ∧ date d = Val t ∧ (time emptyWorld ≤ t)%Z.
Proof.
  split; [reflexivity|].
  destruct (@addSalary_date_defaults_to_now sampleMongoose createAlice
              emptyWorld _ eq_refl addSalary_createAlice)
    as (d & t & Hs & Hd & _ & Hle).
  eexists _, d, t. split; [exact addSalary_createAlice|].
  split; [exact Hs|]. split; [exact Hd|exact Hle].
Defined.

Lemma addSalary_reads_only_five_body_fields_witness :
  session_user createPlain = session_user createForged
  ∧ (∀ k, k ∈ ["employeeName"; "amount"; "type"; "date"; "notes"] →
          Js.get (body createPlain) k = Js.get (body createForged) k)
  ∧ body createPlain ≠ body createForged
  ∧ @addSalary sampleMongoose createPlain emptyWorld
    = @addSalary sampleMongoose createForged emptyWorld.
Proof.
  assert (∀ k, k ∈ ["employeeName"; "amount"; "type"; "date"; "notes"] →
            Js.get (body createPlain) k = Js.get (body createForged) k) as Hsame.
  { intros k Hk.
    repeat (apply elem_of_cons in Hk as [->|Hk]; [reflexivity|]).
    by apply elem_of_nil in Hk. }
  split; [reflexivity|]. split; [exact Hsame|]. split.
  - intros Heq. apply (f_equal (λ o, o !! "salaryId")) in Heq. discriminate.
  - exact (proj1 (@addSalary_reads_only_five_body_fields sampleMongoose)
             createPlain createForged emptyWorld eq_refl Hsame).
Defined.

Lemma addSalary_without_session_user_witness :
  session_user createAnonymous = None
  ∧ ∃ w1 : World,
      @addSalary sampleMongoose createAnonymous emptyWorld
      = (Send 500 "Server Error", logError noSessionUser w1)
      ∧ store (logError noSessionUser w1) = store emptyWorld.
Proof.
  split; [reflexivity|].
  destruct (@addSalary_without_session_user sampleMongoose createAnonymous
              emptyWorld eq_refl) as (w1 & _ & Hrun & Hs & _).
  exists w1. split; [exact Hrun|exact Hs].
Defined.

Lemma connectDB_memoizes_witness :
  ∃ s' : State,
    awaitConnectDB [Resolve 7%nat] freshOnVercel = Some (Conn 7%nat, s')
    ∧ length (attempts s') = 1%nat
    ∧ cached_conn s' = Some 7%nat
    ∧ connectDB (Nat.iter 5 (λ x, (connectDB x).2) s') = (Done (Conn 7%nat), s').
Proof.
  eexists. split; [vm_compute; reflexivity|]. split; [reflexivity|].
  destruct (proj1 (proj2 connectDB_memoizes) [Resolve 7%nat] freshOnVercel _
              7%nat eq_refl) as [Hc Hn].
  split; [exact Hc|exact (Hn 5%nat)].
Defined.

Lemma coldStart_wf : wf coldStart.
Proof. intros p [= <-]. simpl. lia. Qed.

Lemma dbGuard_verdict_witness :
  onVercel coldStart = true ∧ readyState coldStart = Connecting
  ∧ cached_promise coldStart = Some 0%nat
  ∧ attempts coldStart !! 0%nat = Some ("mongodb+srv://cluster/pos", None)
  ∧ dbGuard [Resolve 7%nat] coldStart
    = Some (Next, setConn 7%nat (settle 0 (Resolve 7%nat) coldStart))
  ∧ dbGuard [Reject] coldStart
    = Some (Respond 503 "Setup Required", settle 0 Reject coldStart)
  ∧ ∃ (v : Verdict) (s' : State),
      dbGuard [Reject] coldStart = Some (v, s')
      ∧ (readyState s' ≠ Connected → v = Respond 503 "Setup Required").
Proof.
  destruct dbGuard_verdict as (Hany & Hflight & _).
  destruct (Hflight [] coldStart 0%nat "mongodb+srv://cluster/pos" 7%nat
              eq_refl eq_refl eq_refl eq_refl eq_refl eq_refl)
    as (Hok & _ & Hko & _).
  split; [reflexivity|]. split; [reflexivity|]. split; [reflexivity|].
  split; [reflexivity|]. split; [exact Hok|]. split; [exact Hko|].
  destruct (Hany [Reject] coldStart coldStart_wf eq_refl)
    as (v & s' & Hrun & H503 & _); [discriminate|].
  exists v, s'. split; [exact Hrun|exact H503].
Defined.

Example dbGuard_coldStart_rejected :
  (λ r, fst <$> r) (dbGuard [Reject] coldStart)
  = Some (Respond 503 "Setup Required").
Proof. vm_compute. reflexivity. Qed.

(** C3, as stated, fails when the [type] that is present is [null]: it is
    outside the enumeration, yet with the enum validator of current
    Mongoose the create succeeds and the record is stored with [type]
    [null]. *)
Lemma addSalary_null_type_is_stored :
  body Cases.createNullType !! "type" = Some Js.Null
  ∧ Js.Null ≠ Js.Str "full" ∧ Js.Null ≠ Js.Str "advance"
  ∧ (∃ (w' : World) (d : Doc),
       @addSalary sampleMongoose Cases.createNullType emptyWorld
       = (Redirect "/salaries", w')
       ∧ store w' = store emptyWorld ++ [d]
       ∧ type d = NullV)
  ∧ ¬ (∀ (M : Mongoose) (req : Request) (w : World) (v : Js.value),
         body req !! "type" = Some v →
         v ≠ Js.Str "full" → v ≠ Js.Str "advance" →
         ∃ w' : World,
           @addSalary M req w = (Send 500 "Server Error", w')
           ∧ store w' = store w).
Proof.
  assert (Hrun : @addSalary sampleMongoose Cases.createNullType emptyWorld
                 = (Redirect "/salaries",
                    (@addSalary sampleMongoose Cases.createNullType emptyWorld).2))
    by (vm_compute; reflexivity).
  split; [reflexivity|]. split; [discriminate|]. split; [discriminate|].
  split.
  - eexists _, _. split; [exact Hrun|]. split; vm_compute; reflexivity.
  - intros Hall.
    destruct (Hall sampleMongoose Cases.createNullType emptyWorld Js.Null)
      as (w' & Hfail & _); [reflexivity|discriminate|discriminate|].
    rewrite Hrun in Hfail. discriminate.
Qed.

(** * Further properties of the controller *)

Import Scenario.

Lemma removeFirst_sublist (p : Doc → bool) (l : list Doc) :
  (removeFirst p l).2 `sublist_of` l.
Proof.
  induction l as [|d l IH]; simpl; [constructor|].
  destruct (p d); simpl.
  - by apply sublist_cons.
  - destruct (removeFirst p l) as [r l']. simpl in *. by apply sublist_skip.
Qed.

Lemma removeFirst_last (p : Doc → bool) (l : list Doc) (d : Doc) :
  (∀ e, e ∈ l → p e = false) → p d = true →
  removeFirst p (l ++ [d]) = (Some d, l).
Proof.
  intros Hl Hd. induction l as [|x l IH]; simpl.
  - by rewrite Hd.
  - rewrite (Hl x) by (apply elem_of_cons; by left).
    rewrite IH; [done|]. intros e He. apply Hl, elem_of_cons. by right.
Qed.

(** Under the unique index, removing the first document with an id leaves
    none with that id. *)
Lemma removeFirst_unique (id : string) (l : list Doc) :
  uniqueIds l →
  ∀ e, e ∈ (removeFirst (λ d, bool_decide (salaryId d = Val id)) l).2 →
       salaryId e ≠ Val id.
Proof.
  unfold uniqueIds. induction l as [|d l IH]; intros Hnd e He.
  - by apply elem_of_nil in He.
  - rewrite fmap_cons in Hnd. apply NoDup_cons in Hnd as [Hnotin Hnd].
    simpl in He.
    destruct (bool_decide (salaryId d = Val id)) eqn:Hd; simpl in He.
    + apply bool_decide_eq_true in Hd. intros Heq. apply Hnotin.
      apply list_elem_of_fmap. exists e. split; [|done].
      apply indexKey_Some in Hd, Heq. congruence.
    + destruct (removeFirst _ l) as [r l'] eqn:Hrm. simpl in *.
      apply elem_of_cons in He as [->|He].
      * by apply bool_decide_eq_false in Hd.
      * by apply IH.
Qed.

Lemma getSalaries_store (req : Request) (w : World) :
  store (getSalaries req w).2 = store w.
Proof.
  unfold getSalaries, tryCatch, find, mbind, M_bind. by destruct (dbUp w).
Qed.

Lemma deleteSalary_store (req : Request) (w : World) :
  store (deleteSalary req w).2
  = if dbUp w
    then (removeFirst (λ d, bool_decide (salaryId d = Val (params_id req)))
            (store w)).2
    else store w.
Proof.
  unfold deleteSalary, tryCatch, findOneAndDelete, mbind, M_bind.
  destruct (dbUp w); [|done]. by destruct (removeFirst _ _).
Qed.

(** The result of [addSalary], whatever the response. *)
Lemma addSalary_cases `{Mongoose} (req : Request) (w : World) :
  (∃ w', addSalary req w = (Redirect "/salaries", w'))
  ∨ (∃ w' err, addSalary req w = (Send 500 "Server Error", w')
               ∧ store w' = store w ∧ console w' = console w ++ [err]).
Proof.
  destruct (addSalary req w) as [r w'] eqn:Hrun.
  assert (r = Redirect "/salaries" ∨ r ≠ Redirect "/salaries") as [->|Hr].
  { destruct r as [| url |]; [by right| |by right].
    destruct (decide (url = "/salaries")) as [->|]; [by left|].
    right. congruence. }
  - left. eauto.
  - right. destruct (addSalary_failure req w w' r Hrun Hr) as (-> & Hs & err & Hc).
    eauto.
Qed.


(** What a successful create leaves behind. *)
Lemma addSalary_appended `{Mongoose} (req : Request) (w w' : World) :
  addSalary req w = (Redirect "/salaries", w') →
  ∃ d : Doc,
    store w' = store w ++ [d]
    ∧ salaryId d = Val ("SAL" +:+ pretty (time (advance w)))
    ∧ (∀ e, e ∈ store w → salaryId e ≠ salaryId d)
    ∧ dbUp w' = true
    ∧ console w' = console w.
Proof.
  intros Hrun.
  destruct (addSalary_success req w w' Hrun) as (u & Hu & Hok).
  cbv zeta in Hok. destruct Hok as (_ & Hup & Hfree & ->).
  rewrite assemble_salaryObject_key in Hfree.
  eexists. split; [reflexivity|]. rewrite assemble_salaryObject_doc.
  split_and!.
  - done.
  - intros e He Hid.
    assert (keyTaken (Some ("SAL" +:+ pretty (time (advance w)))) (store w) = true)
      as Htaken by (apply keyTaken_spec; eauto).
    congruence.
  - change (dbUp (setStore ?s ?x)) with (dbUp x).
    destruct (Js.truthy _); by rewrite ?advance_dbUp.
  - change (console (setStore ?s ?x)) with (console x).
    destruct (Js.truthy _); by rewrite ?advance_console.
Qed.

Lemma failing_empty {A} `{EqDecision A} `{Mongoose} (o : PathOptions A)
    (nonEmpty : A → bool) (f : Field A) (path : string) :
  failing o nonEmpty f path = ∅ → validatePath o nonEmpty f = true.
Proof.
  unfold failing. destruct (validatePath o nonEmpty f); [done|].
  intros Hempty. assert (path ∈ (∅ : gset string)) as Hin
    by (rewrite <- Hempty; by apply elem_of_singleton).
  by apply elem_of_empty in Hin.
Qed.

(** A document that passed validation conforms to the schema, once its
    defaults are in. *)
Lemma validate_conforms `{Mongoose} (b : Built) :
  validate b = ∅ → (∃ c, createdAt (doc b) = Val c) → type (doc b) ≠ Unset →
  conforms (doc b).
Proof.
  unfold validate. intros Hv Hc Ht.
  repeat (apply empty_union_L in Hv as [Hv ?]).
  repeat match goal with
         | Hf : failing _ _ _ _ = ∅ |- _ => apply failing_empty in Hf
         end.
  repeat match goal with
         | Hf : validatePath _ _ _ = true |- _ =>
             unfold validatePath, checkRequired, checkEnum in Hf; simpl in Hf
         end.
  unfold conforms. split_and!; [| | | | |done].
  - destruct (salaryId (doc b)) as [| |id]; try done. exists id. split; [done|].
    intros ->. done.
  - destruct (employeeName (doc b)) as [| |n]; try done. exists n. split; [done|].
    intros ->. done.
  - destruct (amount (doc b)) as [| |a]; try done. eauto.
  - destruct (type (doc b)) as [| |t]; [done| |].
    + right; right. split; [done|]. by destruct enumAcceptsNull.
    + match goal with
      | Hf : bool_decide (t ∈ _) = true |- _ =>
          apply bool_decide_eq_true in Hf;
          apply elem_of_cons in Hf as [->|Hf]; [by left|];
          apply elem_of_cons in Hf as [->|Hf]; [by right; left|];
          by apply elem_of_nil in Hf
      end.
  - destruct (date (doc b)) as [| |t]; try done. eauto.
Qed.

Lemma step_uniqueIds `{Mongoose} (w : World) (e : Event) :
  uniqueIds (store w) → uniqueIds (store (step w e)).
Proof.
  destruct e; simpl;
    auto using getSalaries_uniqueIds, addSalary_uniqueIds, deleteSalary_uniqueIds.
Qed.

Lemma step_conforms `{Mongoose} (w : World) (e : Event) :
  Forall conforms (store w) → Forall conforms (store (step w e)).
Proof.
  intros Hall. destruct e as [req|req|req|up]; simpl.
  - by rewrite getSalaries_store.
  - destruct (addSalary_cases req w) as [[w' Hrun]|(w' & err & Hrun & Hs & _)];
      rewrite Hrun; simpl; [|by rewrite Hs].
    destruct (addSalary_success req w w' Hrun) as (u & Hu & Hok).
    cbv zeta in Hok. destruct Hok as (Hvalid & _ & _ & ->).
    change (store (setStore ?s ?x)) with s.
    apply Forall_app. split; [done|]. apply Forall_singleton.
    apply validate_conforms; [done| |]; rewrite assemble_salaryObject_doc.
    + eauto.
    + simpl type. by destruct (pathValue castString _).
  - rewrite deleteSalary_store. destruct (dbUp w); [|done].
    apply Forall_forall. intros d Hd. rewrite Forall_forall in Hall.
    apply Hall. eapply elem_of_sublist; [exact Hd|apply removeFirst_sublist].
  - done.
Qed.

Section ControllerExtras.
Context `{Mongoose}.

(** X1.  The unique index on [salaryId] survives every sequence of
    requests and database outages: if no two documents share a [salaryId]
    before, none do after. *)
Theorem serve_keeps_unique_salaryIds (events : list Event) (w : World) :
  uniqueIds (store w) → uniqueIds (store (serve events w)).
Proof.
  revert w. induction events as [|e events IH]; intros w Hu; [done|].
  simpl. apply IH. by apply step_uniqueIds.
Qed.

(** X2.  Every document the handlers ever store conforms to the schema:
    if the collection holds only conforming documents before a sequence of
    requests, it does after - non-empty [salaryId] and [employeeName], an
    [amount], a [date], a [createdAt], and a [type] that is ["full"],
    ["advance"] or, where the validator admits it, [null]. *)
Theorem serve_keeps_documents_conforming (events : list Event) (w : World) :
  Forall conforms (store w) → Forall conforms (store (serve events w)).
Proof.
  revert w. induction events as [|e events IH]; intros w Hall; [done|].
  simpl. apply IH. by apply step_conforms.
Qed.

(** X3.  Deleting the id that a successful create has just generated
    undoes the create: the handler redirects and the collection is what it
    was before the create. *)
Theorem addSalary_then_deleteSalary_restores (req del : Request) (w w' : World) :
  addSalary req w = (Redirect "/salaries", w') →
  params_id del = "SAL" +:+ pretty (time (advance w)) →
  deleteSalary del w' = (Redirect "/salaries", setStore (store w) w').
Proof.
  intros Hrun Hid.
  destruct (addSalary_appended req w w' Hrun) as (d & Hs & Hd & Hfresh & Hup & _).
  unfold deleteSalary, tryCatch, findOneAndDelete, mbind, M_bind.
  rewrite Hup, Hs, Hid, removeFirst_last; [done| |].
  - intros e He. apply bool_decide_eq_false. rewrite <- Hd. by apply Hfresh.
  - by apply bool_decide_eq_true.
Qed.

(** X4.  After a successful create the list page shows one document more:
    the documents listed are the earlier ones and the new one. *)
Theorem addSalary_then_getSalaries_lists_it (req lst : Request) (w w' : World) :
  addSalary req w = (Redirect "/salaries", w') →
  ∃ (d : Doc) (listed : list Doc),
    getSalaries lst w' =
      (Render "pages/salaries"
         {| title := "Salaries"; salaries := listed;
            user := session_user lst; path := "/salaries" |}, w')
    ∧ listed ≡ₚ d :: store w
    ∧ length listed = S (length (store w))
    ∧ salaryId d = Val ("SAL" +:+ pretty (time (advance w))).
Proof.
  intros Hrun.
  destruct (addSalary_appended req w w' Hrun) as (d & Hs & Hd & _ & Hup & _).
  exists d, (sortDateDesc (store w')).
  assert (sortDateDesc (store w') ≡ₚ d :: store w) as Hperm.
  { rewrite sortDateDesc_perm, Hs. symmetry. apply Permutation_cons_append. }
  split_and!; [|done| |done].
  - unfold getSalaries, tryCatch, find, mbind, M_bind, mret, M_ret.
    by rewrite Hup.
  - by rewrite Hperm.
Qed.

(** X5.  Under the unique index a delete is idempotent: repeating it
    redirects again and changes nothing more. *)
Theorem deleteSalary_twice (req : Request) (w : World) :
  dbUp w = true → uniqueIds (store w) →
  deleteSalary req (deleteSalary req w).2
  = (Redirect "/salaries", (deleteSalary req w).2).
Proof.
  intros Hup Hu.
  pose proof (removeFirst_unique (params_id req) (store w) Hu) as Hgone.
  unfold deleteSalary at 2 3. unfold tryCatch, findOneAndDelete, mbind, M_bind.
  rewrite Hup.
  destruct (removeFirst _ (store w)) as [r l'] eqn:Hrm. simpl in Hgone. simpl.
  unfold deleteSalary, tryCatch, findOneAndDelete, mbind, M_bind. simpl.
  rewrite Hup, removeFirst_miss; [done|].
  intros d Hd. apply bool_decide_eq_false. by apply Hgone.
Qed.

(** X6.  A delete only ever removes: the collection afterwards is a
    sublist of the one before, at most one document shorter, and the
    documents with another [salaryId] are exactly those that were there. *)
Theorem deleteSalary_only_removes_that_id (req : Request) (w : World) :
  store (deleteSalary req w).2 `sublist_of` store w
  ∧ (length (store w) ≤ length (store (deleteSalary req w).2) + 1)%nat
  ∧ ∀ e, salaryId e ≠ Val (params_id req) →
         (e ∈ store (deleteSalary req w).2 ↔ e ∈ store w).
Proof.
  rewrite deleteSalary_store. destruct (dbUp w); [|split_and!; [done|lia|done]].
  set (p := λ d, bool_decide (salaryId d = Val (params_id req))).
  split; [apply removeFirst_sublist|].
  assert (Hcases : (removeFirst p (store w)).2 = store w
                   ∨ ∃ l1 d l2, store w = l1 ++ d :: l2 ∧ p d = true
                                ∧ (removeFirst p (store w)).2 = l1 ++ l2).
  { induction (store w) as [|x l IH]; simpl; [by left|].
    destruct (p x) eqn:Hx; simpl.
    - right. by exists [], x, l.
    - destruct (removeFirst p l) as [r l'] eqn:Hrm. simpl in *.
      destruct IH as [->|(l1 & d & l2 & -> & Hd & ->)]; [by left|].
      right. by exists (x :: l1), d, l2. }
  destruct Hcases as [->|(l1 & d & l2 & -> & Hd & ->)].
  - split; [lia|done].
  - split.
    + rewrite !length_app. simpl. lia.
    + intros e He. rewrite !elem_of_app, elem_of_cons.
      apply bool_decide_eq_true in Hd. split; [tauto|].
      intros [?|[->|?]]; [tauto|done|tauto].
Qed.

End ControllerExtras.

Lemma elem_of_validate_name `{Mongoose} (b : Built) :
  validatePath (p_employeeName salarySchema) nonEmptyString
    (employeeName (doc b)) = false →
  "employeeName" ∈ validate b.
Proof.
  intros Hv. unfold validate. rewrite !elem_of_union.
  do 6 left. right. unfold failing. rewrite Hv. by apply elem_of_singleton.
Qed.

Lemma elem_of_validate_amount `{Mongoose} (b : Built) :
  validatePath (p_amount salarySchema) anyValue (amount (doc b)) = false →
  "amount" ∈ validate b.
Proof.
  intros Hv. unfold validate. rewrite !elem_of_union.
  do 5 left. right. unfold failing. rewrite Hv. by apply elem_of_singleton.
Qed.


(** With a session user, a path that fails validation makes [addSalary]
    answer 500 with the validation error, the collection untouched. *)
Lemma addSalary_invalid `{Mongoose} (req : Request) (w : World) (u : User)
    (path : string) :
  session_user req = Some u →
  (∀ now, path ∈ validate
     (assemble
        (salaryObject (time (advance w))
           (Js.get (body req) "employeeName") (Js.get (body req) "amount")
           (Js.get (body req) "type")
           (if Js.truthy (Js.get (body req) "date")
            then Js.get (body req) "date"
            else Js.Date (time (advance (advance w))))
           (Js.get (body req) "notes") (name u)) now)) →
  ∃ (w' : World) (paths : gset string),
    addSalary req w = (Send 500 "Server Error", w')
    ∧ store w' = store w
    ∧ console w' = console w ++ [ValidationError paths]
    ∧ path ∈ paths.
Proof.
  intros Hu Hin.
  pose proof (addSalary_run req w u Hu) as Hrun. cbv zeta in Hrun.
  assert (Hw2 : (if Js.truthy (Js.get (body req) "date")
                 then Js.get (body req) "date"
                 else Js.Date (time (if Js.truthy (Js.get (body req) "date")
                                     then advance w else advance (advance w))))
                = (if Js.truthy (Js.get (body req) "date")
                   then Js.get (body req) "date"
                   else Js.Date (time (advance (advance w)))))
    by (by destruct (Js.truthy _)).
  rewrite Hw2 in Hrun.
  match type of Hrun with
  | context [validate ?b] => set (built := b) in *
  end.
  assert (path ∈ validate built) as Hin' by apply Hin.
  rewrite decide_False in Hrun
    by (intros Hempty; rewrite Hempty in Hin'; by apply elem_of_empty in Hin').
  eexists _, _. split; [exact Hrun|].
  change (store (logError ?e ?x)) with (store x).
  change (console (logError ?e ?x)) with (console x ++ [e]).
  split_and!; [| |done].
  - destruct (Js.truthy _); by rewrite ?advance_store.
  - destruct (Js.truthy _); by rewrite ?advance_console.
Qed.

Section CreateExtras.
Context `{Mongoose}.

(** X7.  The required paths are enforced: with a session user, a body
    whose [employeeName] is missing, [null] or the empty string, or whose
    [amount] is missing or [null], makes [addSalary] answer 500 with a
    validation error that names the path; nothing is stored. *)
Theorem addSalary_requires_name_and_amount (req : Request) (w : World) (u : User) :
  session_user req = Some u →
  (Js.get (body req) "employeeName" ∈ [Js.Undefined; Js.Null; Js.Str ""] →
   ∃ (w' : World) (paths : gset string),
     addSalary req w = (Send 500 "Server Error", w')
     ∧ store w' = store w
     ∧ console w' = console w ++ [ValidationError paths]
     ∧ "employeeName" ∈ paths)
  ∧ (Js.get (body req) "amount" ∈ [Js.Undefined; Js.Null] →
     ∃ (w' : World) (paths : gset string),
       addSalary req w = (Send 500 "Server Error", w')
       ∧ store w' = store w
       ∧ console w' = console w ++ [ValidationError paths]
       ∧ "amount" ∈ paths).
Proof.
  intros Hu. split; intros Hv.
  - apply (addSalary_invalid req w u "employeeName" Hu). intros now.
    apply elem_of_validate_name. rewrite assemble_salaryObject_doc.
    simpl employeeName. unfold pathValue, assign, setPath.
    repeat (apply elem_of_cons in Hv as [->|Hv]);
      [done|done|by rewrite castString_Str|by apply elem_of_nil in Hv].
  - apply (addSalary_invalid req w u "amount" Hu). intros now.
    apply elem_of_validate_amount. rewrite assemble_salaryObject_doc.
    simpl amount. unfold pathValue, assign, setPath.
    repeat (apply elem_of_cons in Hv as [->|Hv]);
      [done|done|by apply elem_of_nil in Hv].
Qed.




(** X11.  The three handlers share one failure contract: each either
    succeeds without logging anything, or answers exactly
    [500 "Server Error"] after logging exactly one error, and a failure
    never changes the collection. *)
Theorem handlers_fail_with_500_and_one_log_line (req : Request) (w : World) :
  ((∃ listed, getSalaries req w =
      (Render "pages/salaries"
         {| title := "Salaries"; salaries := listed;
            user := session_user req; path := "/salaries" |}, w))
   ∨ (∃ err, getSalaries req w = (Send 500 "Server Error", logError err w)))
  ∧ ((∃ w', addSalary req w = (Redirect "/salaries", w')
            ∧ console w' = console w)
     ∨ (∃ w' err, addSalary req w = (Send 500 "Server Error", w')
                  ∧ store w' = store w ∧ console w' = console w ++ [err]))
  ∧ ((∃ w', deleteSalary req w = (Redirect "/salaries", w')
            ∧ console w' = console w)
     ∨ (∃ err, deleteSalary req w = (Send 500 "Server Error", logError err w))).
Proof.
  split_and!.
  - unfold getSalaries, tryCatch, find, mbind, M_bind, mret, M_ret, serverError.
    destruct (dbUp w); [left|right]; eauto.
  - destruct (addSalary_cases req w) as [[w' Hrun]|Hfail]; [left|by right].
    destruct (addSalary_appended req w w' Hrun) as (d & _ & _ & _ & _ & Hc).
    eauto.
  - unfold deleteSalary, tryCatch, findOneAndDelete, mbind, M_bind, mret, M_ret,
      serverError.
    destruct (dbUp w); [left|right; eauto].
    destruct (removeFirst _ _). eauto.
Qed.

End CreateExtras.

(** * Further properties of the server bootstrap *)

Import Middleware Listen.

Lemma truthy_envValue (v : option string) :
  Js.truthy (envValue v) = Js.env_truthy v.
Proof. by destruct v. Qed.

(** X12.  The [dbMissing] flag never reaches a view as a truthy value:
    whenever the view-globals middleware and the guard let a request
    through to the routes, [res.locals.dbMissing] is falsy - in the one
    situation where it is truthy (ready state 0 with [VERCEL] set) the
    guard answers 503 itself. *)
Theorem dbMissing_is_falsy_at_the_routes (BUSINESS_NAME : option string)
    (reqPath : string) (sessionUser : option User) (outs : list Outcome)
    (s s' : State) (globals : ViewGlobals) :
  beforeRoutes BUSINESS_NAME reqPath sessionUser outs s
  = Some (ToRoutes globals, s') →
  Js.truthy (dbMissing globals) = false
  ∧ globals = viewGlobals BUSINESS_NAME reqPath sessionUser s
  ∧ (Js.truthy (dbMissing (viewGlobals BUSINESS_NAME reqPath sessionUser s))
     = true →
     beforeRoutes BUSINESS_NAME reqPath sessionUser outs s
     = Some (Answered 503 "Setup Required", s)).
Proof.
  intros Hrun.
  assert (Hflag : Js.truthy (dbMissing
            (viewGlobals BUSINESS_NAME reqPath sessionUser s)) = true →
          dbGuard outs s = Some (Respond 503 "Setup Required", s)).
  { simpl. destruct (decide (readyState s = Disconnected)) as [Hrs|Hrs].
    - rewrite (bool_decide_eq_true_2 _ Hrs), truthy_envValue. intros Hv.
      unfold dbGuard, guardStart, lastCheck. rewrite Hv, Hrs. reflexivity.
    - by rewrite (bool_decide_eq_false_2 _ Hrs). }
  assert (globals = viewGlobals BUSINESS_NAME reqPath sessionUser s) as ->.
  { unfold beforeRoutes in Hrun.
    destruct (dbGuard outs s) as [[[|status page] s0]|]; [|done|done].
    by injection Hrun as <- _. }
  split_and!; [|done|].
  - destruct (Js.truthy (dbMissing _)) eqn:Hd; [|done].
    unfold beforeRoutes in Hrun. by rewrite (Hflag eq_refl) in Hrun.
  - intros Hd. unfold beforeRoutes. by rewrite (Hflag Hd).
Qed.

Lemma startServer_more (n m : nat) (listen : nat → ListenOutcome)
    (dflt port : nat) (r : option nat * list LogLine) :
  startServer n listen dflt port = Some r → (n ≤ m)%nat →
  startServer m listen dflt port = Some r.
Proof.
  revert m port r. induction n as [|n IH]; intros m port r Hrun Hle; [done|].
  destruct m as [|m]; [lia|]. cbn [startServer] in *.
  destruct (bool_decide (maxPort < port)%nat); [done|].
  destruct (listen port); [done| |done].
  destruct (startServer n listen dflt (port + 1)) as [[r' lines]|] eqn:Hrec;
    [|done].
  by rewrite (IH m (port + 1)%nat (r', lines) Hrec) by lia.
Qed.

(** X13.  Where [startServer] ends up: if it reports a server listening on
    port [q], then [q] is the first port from the starting port on that was
    not in use - every port before it answered EADDRINUSE and was logged as
    busy, in order - and the fallback warning is written exactly when [q]
    is not the default port. *)
Theorem startServer_listens_on_first_free_port (attempts : nat)
    (listen : nat → ListenOutcome) (dflt start q : nat) (lines : list LogLine) :
  startServer attempts listen dflt start = Some (Some q, lines) →
  (start ≤ q)%nat
  ∧ listen q = Listening
  ∧ (∀ p, (start ≤ p < q)%nat → listen p = AddrInUse)
  ∧ lines = ((λ p, PortBusy p (p + 1)) <$> seq start (q - start))
            ++ ServerRunning q
               :: (if bool_decide (q ≠ dflt) then [FallbackWarning dflt q]
                   else []).
Proof.
  revert start lines. induction attempts as [|n IH]; intros start lines Hrun;
    [done|].
  cbn [startServer] in Hrun.
  destruct (bool_decide (maxPort < start)%nat); [done|].
  destruct (listen start) eqn:Hl; [| |done].
  - injection Hrun as <- <-. rewrite Nat.sub_diag. simpl.
    split_and!; [lia|done|intros p Hp; lia|done].
  - destruct (startServer n listen dflt (start + 1)) as [[r lines']|] eqn:Hrec;
      [|done].
    injection Hrun as -> <-.
    destruct (IH (start + 1)%nat lines' Hrec) as (Hle & Hq & Hbusy & ->).
    split_and!; [lia|done| |].
    + intros p Hp. destruct (decide (p = start)) as [->|]; [done|].
      apply Hbusy. lia.
    + replace (q - start)%nat with (S (q - (start + 1))) by lia.
      simpl. by rewrite Nat.add_1_r.
Qed.

Lemma startServer_S (n : nat) (listen : nat → ListenOutcome) (dflt port : nat) :
  startServer (S n) listen dflt port
  = if bool_decide (maxPort < port)%nat
    then Some (None, [UncaughtRangeError port])
    else match listen port with
         | Listening =>
             Some (Some port,
                   ServerRunning port
                   :: (if bool_decide (port ≠ dflt)
                       then [FallbackWarning dflt port] else []))
         | AddrInUse =>
             match startServer n listen dflt (port + 1) with
             | Some (r, lines) => Some (r, PortBusy port (port + 1) :: lines)
             | None => None
             end
         | OtherError code => Some (None, [ServerErrorLine code])
         end.
Proof. reflexivity. Qed.

(** One attempt of [startServer] on a port in range that is in use. *)
Lemma startServer_busy (n : nat) (listen : nat → ListenOutcome)
    (dflt port : nat) :
  (port ≤ maxPort)%nat → listen port = AddrInUse →
  startServer (S n) listen dflt port
  = match startServer n listen dflt (port + 1) with
    | Some (r, lines) => Some (r, PortBusy port (port + 1) :: lines)
    | None => None
    end.
Proof.
  intros Hle Hbusy. cbn [startServer].
  rewrite bool_decide_eq_false_2 by lia. by rewrite Hbusy.
Qed.

(** X14.  The retry is bounded by the port range only.  [startServer]
    reaches the first port up to [maxPort] that does not answer EADDRINUSE
    after one attempt per busy port, and listens there or gives up there on
    another error; when every port from the starting port up to [maxPort]
    is in use, it has logged each of them as busy and ends with the
    [RangeError] that [app.listen] throws for port [maxPort + 1]; either
    way it ends within [maxPort + 2 - start] attempts. *)
Theorem startServer_retries_until_a_port_is_not_in_use
    (listen : nat → ListenOutcome) (dflt start : nat) :
  (∀ q, (start ≤ q ≤ maxPort)%nat →
        (∀ p, (start ≤ p < q)%nat → listen p = AddrInUse) →
        listen q ≠ AddrInUse →
        ∀ attempts, (q - start < attempts)%nat →
        ∃ lines,
          startServer attempts listen dflt start
          = Some (match listen q with
                  | Listening => Some q
                  | _ => None
                  end, lines)
          ∧ length lines = match listen q with
                           | Listening =>
                               if bool_decide (q ≠ dflt)
                               then S (S (q - start)) else S (q - start)
                           | _ => S (q - start)
                           end)
  ∧ ((start ≤ maxPort + 1)%nat →
     (∀ p, (start ≤ p ≤ maxPort)%nat → listen p = AddrInUse) →
     ∀ attempts, (maxPort + 1 - start < attempts)%nat →
     startServer attempts listen dflt start
     = Some (None,
             ((λ p, PortBusy p (p + 1)) <$> seq start (maxPort + 1 - start))
             ++ [UncaughtRangeError (maxPort + 1)]))
  ∧ (∀ attempts, (maxPort + 1 - start < attempts)%nat →
     ∃ r, startServer attempts listen dflt start = Some r).
Proof.
  split_and!.
  - intros q [Hle Hmax] Hbusy Hfree attempts Hn.
    assert (Hexact : ∀ k start0, (start0 + k = q)%nat →
              (∀ p, (start0 ≤ p < q)%nat → listen p = AddrInUse) →
              ∃ lines,
                startServer (S k) listen dflt start0
                = Some (match listen q with
                        | Listening => Some q
                        | _ => None
                        end, lines)
                ∧ length lines = match listen q with
                                 | Listening =>
                                     if bool_decide (q ≠ dflt)
                                     then S (S k) else S k
                                 | _ => S k
                                 end).
    { induction k as [|k IH]; intros start0 Hsum Hb.
      - assert (start0 = q) as -> by lia. cbn [startServer].
        rewrite bool_decide_eq_false_2 by lia.
        destruct (listen q) eqn:Hl; [|done|].
        + eexists. split; [reflexivity|]. simpl. by destruct (bool_decide _).
        + eexists. split; [reflexivity|]. done.
      - destruct (IH (start0 + 1)%nat) as (lines & Hrun & Hlen); [lia| |].
        { intros p Hp. apply Hb. lia. }
        rewrite startServer_busy, Hrun by (try apply Hb; lia).
        eexists. split; [reflexivity|]. simpl. rewrite Hlen.
        destruct (listen q); [by destruct (bool_decide _)|done..]. }
    destruct (Hexact (q - start)%nat start) as (lines & Hrun & Hlen); [lia|done|].
    exists lines. split; [|done].
    eapply startServer_more; [exact Hrun|lia].
  - intros Hstart Hall attempts Hn.
    assert (Hexact : ∀ k start0, (start0 + k = maxPort + 1)%nat →
              (∀ p, (start0 ≤ p ≤ maxPort)%nat → listen p = AddrInUse) →
              startServer (S k) listen dflt start0
              = Some (None,
                      ((λ p, PortBusy p (p + 1)) <$> seq start0 k)
                      ++ [UncaughtRangeError (maxPort + 1)])).
    { induction k as [|k IH]; intros start0 Hsum Hb.
      - assert (start0 = maxPort + 1)%nat as -> by lia. cbn [startServer].
        by rewrite bool_decide_eq_true_2 by lia.
      - rewrite startServer_busy by (try apply Hb; lia).
        rewrite IH; [|lia|intros p Hp; apply Hb; lia].
        change (seq start0 (S k)) with (start0 :: seq (S start0) k).
        by rewrite fmap_cons, !Nat.add_1_r. }
    eapply startServer_more; [apply Hexact; [lia|done]|lia].
  - intros attempts Hn.
    assert (Hends : ∀ k start0, (maxPort + 1 - start0 ≤ k)%nat →
              ∃ r, startServer (S k) listen dflt start0 = Some r).
    { induction k as [|k IH]; intros start0 Hk; rewrite startServer_S.
      - rewrite bool_decide_eq_true_2 by lia. eauto.
      - destruct (bool_decide (maxPort < start0)%nat) eqn:Hout; [eauto|].
        apply bool_decide_eq_false in Hout.
        destruct (listen start0); [eauto| |eauto].
        destruct (IH (start0 + 1)%nat) as [[r lines] Hrun]; [lia|].
        rewrite Hrun. eauto. }
    destruct (Hends (maxPort + 1 - start)%nat start) as [r Hrun]; [lia|].
    exists r. eapply startServer_more; [exact Hrun|lia].
Qed.

(** ** More on the connection manager *)

Lemma lookup_new_attempt (l : list (string * option Outcome))
    (x : string * option Outcome) :
  (l ++ [x]) !! length l = Some x.
Proof. by apply list_lookup_middle. Qed.

(** Settling a promise touches the ready state and the promise only. *)
Lemma settle_frame (p : nat) (o : Outcome) (s : State) :
  cached_conn (settle p o s) = cached_conn s
  ∧ cached_promise (settle p o s) = cached_promise s
  ∧ MONGODB_URI (settle p o s) = MONGODB_URI s
  ∧ VERCEL (settle p o s) = VERCEL s
  ∧ VERCEL_ENV (settle p o s) = VERCEL_ENV s
  ∧ memoryServers (settle p o s) = memoryServers s
  ∧ length (attempts (settle p o s)) = length (attempts s).
Proof.
  unfold settle. destruct (attempts s !! p) as [[uri [o'|]]|]; simpl;
    rewrite ?length_insert; done.
Qed.

(** A call waiting for promise [p] on Vercel: it comes back with the handle
    or with [null], and changes nothing but the cache and the promise. *)
Lemma run_AfterConnect_onVercel (n : nat) (outs : list Outcome) (p : nat)
    (s s' : State) (r : Result) :
  run (S n) outs (Suspended (AfterConnect p true)) s = Some (r, s') →
  r ≠ RUndefined
  ∧ MONGODB_URI s' = MONGODB_URI s
  ∧ memoryServers s' = memoryServers s
  ∧ cached_promise s' = cached_promise s
  ∧ length (attempts s') = length (attempts s).
Proof.
  intros Hrun. cbn [run awaited] in Hrun.
  destruct (attempts s !! p) as [[uri [o|]]|] eqn:Hlk.
  - cbn [resume] in Hrun. rewrite Hlk in Hrun.
    destruct o as [h|]; destruct n; simpl in Hrun; injection Hrun as <- <-;
      simpl; split_and!; try done.
  - destruct (settle_pending p (hd Reject outs) s uri Hlk) as (Hlk' & _).
    destruct (settle_frame p (hd Reject outs) s)
      as (_ & Hp & Hu & _ & _ & Hm & Hlen).
    cbn [resume] in Hrun. rewrite Hlk' in Hrun.
    destruct (hd Reject outs) as [h|]; destruct n; simpl in Hrun;
      injection Hrun as <- <-; simpl; split_and!; try done.
  - cbn [resume] in Hrun. by rewrite Hlk in Hrun.
Qed.

(** X15.  On Vercel [connectDB] never starts the in-memory server and
    never rewrites [MONGODB_URI]: whatever a call returns - a handle or
    [null], never [undefined] - the memory-server supply and the configured
    URI are as before, and at most one connection attempt was added. *)
Theorem connectDB_onVercel_never_falls_back (outs : list Outcome)
    (s s' : State) (r : Result) :
  onVercel s = true →
  awaitConnectDB outs s = Some (r, s') →
  r ≠ RUndefined
  ∧ memoryServers s' = memoryServers s
  ∧ MONGODB_URI s' = MONGODB_URI s
  ∧ (length (attempts s') ≤ S (length (attempts s)))%nat.
Proof.
  intros Hv Hrun. unfold awaitConnectDB, connectDB in Hrun.
  unfold onVercel in Hv.
  destruct (cached_conn s) as [h|].
  { simpl in Hrun. injection Hrun as <- <-. split_and!; [done..|lia]. }
  rewrite Hv, andb_true_r in Hrun.
  destruct (Js.env_truthy (MONGODB_URI s)) eqn:Huri; simpl negb in Hrun;
    cbv iota in Hrun.
  2:{ simpl in Hrun. injection Hrun as <- <-. split_and!; [done..|lia]. }
  destruct (cached_promise s) as [p|].
  - destruct (run_AfterConnect_onVercel 2 outs p s s' r Hrun)
      as (Hr & Hu & Hm & _ & Hlen).
    split_and!; [done..|lia].
  - cbn [mongooseConnect] in Hrun.
    destruct (run_AfterConnect_onVercel 2 outs _ _ s' r Hrun)
      as (Hr & Hu & Hm & _ & Hlen).
    simpl in Hu, Hm, Hlen. rewrite length_app in Hlen. simpl in Hlen.
    split_and!; [done..|lia].
Qed.

(** X16.  Vercel without [MONGODB_URI]: [connectDB] returns [null] at once
    and attempts nothing, and as long as Mongoose is not connected the guard
    answers every request with 503 "Setup Required", leaving the state as
    it is - so the next request meets the same answer. *)
Theorem onVercel_without_uri_every_request_gets_503 (s : State) :
  onVercel s = true →
  Js.env_truthy (MONGODB_URI s) = false →
  cached_conn s = None →
  readyState s ≠ Connected →
  connectDB s = (Done RNull, s)
  ∧ ∀ outs, dbGuard outs s = Some (Respond 503 "Setup Required", s).
Proof.
  intros Hv Huri Hc Hrs. unfold onVercel in Hv.
  assert (Hstart : connectDB s = (Done RNull, s)).
  { unfold connectDB. by rewrite Hc, Huri, Hv. }
  split; [done|]. intros outs.
  assert (Hgate : negb (Js.env_truthy (VERCEL s))
                  && negb (Js.env_truthy (VERCEL_ENV s)) = false).
  { destruct (Js.env_truthy (VERCEL s)), (Js.env_truthy (VERCEL_ENV s)); done. }
  unfold dbGuard, guardStart. rewrite Hgate, (bool_decide_eq_false_2 _ Hrs).
  destruct (decide (readyState s = Connecting)) as [Hcg|Hcg].
  - rewrite (bool_decide_eq_true_2 _ Hcg). unfold awaitConnectDB.
    rewrite Hstart. simpl. unfold guardResume, lastCheck.
    by rewrite (bool_decide_eq_false_2 _ Hrs), (bool_decide_eq_true_2 _ Hrs).
  - rewrite (bool_decide_eq_false_2 _ Hcg). unfold lastCheck.
    by rewrite (bool_decide_eq_true_2 _ Hrs).
Qed.

(** X17.  A failed attempt is never retried on Vercel.  Once the cached
    promise has been rejected, every later call of [connectDB] waits for
    that same rejected promise and returns [null]: no new call of
    [mongoose.connect], no change of state; and while Mongoose is not
    connected the guard keeps answering 503. *)
Theorem onVercel_rejected_promise_is_never_retried (s : State) (p : nat)
    (uri : string) :
  onVercel s = true →
  Js.env_truthy (MONGODB_URI s) = true →
  cached_conn s = None →
  cached_promise s = Some p →
  attempts s !! p = Some (uri, Some Reject) →
  (∀ outs, awaitConnectDB outs s = Some (RNull, s))
  ∧ (readyState s ≠ Connected →
     ∀ outs, dbGuard outs s = Some (Respond 503 "Setup Required", s)).
Proof.
  intros Hv Huri Hc Hp Hlk. unfold onVercel in Hv.
  assert (Hawait : ∀ outs, awaitConnectDB outs s = Some (RNull, s)).
  { intros outs. unfold awaitConnectDB, connectDB.
    rewrite Hc, Huri, Hv, Hp. simpl. by rewrite Hlk, Hlk. }
  split; [done|]. intros Hrs outs.
  assert (Hgate : negb (Js.env_truthy (VERCEL s))
                  && negb (Js.env_truthy (VERCEL_ENV s)) = false).
  { destruct (Js.env_truthy (VERCEL s)), (Js.env_truthy (VERCEL_ENV s)); done. }
  unfold dbGuard, guardStart. rewrite Hgate, (bool_decide_eq_false_2 _ Hrs).
  destruct (decide (readyState s = Connecting)) as [Hcg|Hcg].
  - rewrite (bool_decide_eq_true_2 _ Hcg), Hawait. unfold guardResume, lastCheck.
    by rewrite (bool_decide_eq_false_2 _ Hrs), (bool_decide_eq_true_2 _ Hrs).
  - rewrite (bool_decide_eq_false_2 _ Hcg). unfold lastCheck.
    by rewrite (bool_decide_eq_true_2 _ Hrs).
Qed.

(** The in-memory branch from its first [await] to its end. *)
Lemma run_fallback (n : nat) (outs : list Outcome) (s : State) :
  run (S (S n)) outs (fallback s).1 (fallback s).2 =
    match memoryServers s with
    | Some muri :: _ =>
        let p := length (attempts s) in
        let s3 := setPromise p (mongooseConnect muri (setUri muri (fallback s).2)).2 in
        let s4 := settle p (hd Reject outs) s3 in
        Some (match hd Reject outs with
              | Resolve h => (Conn h, setConn h s4)
              | Reject => (RUndefined, s4)
              end)
    | _ => Some (RUndefined, (fallback s).2)
    end.
Proof.
  unfold fallback. destruct (memoryServers s) as [|[muri|] rest] eqn:Hm;
    [done| |done].
  cbn [fst snd run awaited resume mongooseConnect setUri attempts length].
  cbn [setPromise attempts].
  rewrite lookup_new_attempt.
  match goal with
  | |- context [settle ?p ?o ?s0] => set (s3 := s0)
  end.
  assert (Hlk : attempts s3 !! length (attempts s) = Some (muri, None))
    by apply lookup_new_attempt.
  destruct (settle_pending _ (hd Reject outs) s3 muri Hlk) as (Hlk' & _).
  rewrite Hlk'. by destruct (hd Reject outs), n.
Qed.

(** X18.  Local development without [MONGODB_URI]: [connectDB] starts an
    in-memory server, publishes its URI in [MONGODB_URI], connects to it
    and caches the handle; when the server cannot be created it returns
    [undefined] without attempting a connection. *)
Theorem connectDB_local_without_uri_uses_memory_server (s : State) :
  onVercel s = false →
  Js.env_truthy (MONGODB_URI s) = false →
  cached_conn s = None →
  (∀ muri rest h outs,
     memoryServers s = Some muri :: rest →
     ∃ s' : State,
       awaitConnectDB (Resolve h :: outs) s = Some (Conn h, s')
       ∧ MONGODB_URI s' = Some muri
       ∧ cached_conn s' = Some h
       ∧ cached_promise s' = Some (length (attempts s))
       ∧ attempts s' = attempts s ++ [(muri, Some (Resolve h))]
       ∧ readyState s' = Connected
       ∧ memoryServers s' = rest)
  ∧ (∀ outs,
       hd None (memoryServers s) = None →
       ∃ s' : State,
         awaitConnectDB outs s = Some (RUndefined, s')
         ∧ cached_conn s' = None
         ∧ attempts s' = attempts s
         ∧ MONGODB_URI s' = MONGODB_URI s).
Proof.
  intros Hv Huri Hc. unfold onVercel in Hv.
  assert (Hstart : connectDB s = fallback s).
  { unfold connectDB, inMemoryBranch. by rewrite Hc, Huri, Hv. }
  split.
  - intros muri rest h outs Hm. unfold awaitConnectDB. rewrite Hstart.
    pose proof (run_fallback 1 (Resolve h :: outs) s) as Hrun.
    destruct (fallback s) as [st s2] eqn:Hf. simpl fst in Hrun. simpl snd in Hrun.
    rewrite Hrun, Hm. cbv zeta. simpl hd. eexists. split; [reflexivity|].
    unfold fallback in Hf. rewrite Hm in Hf. injection Hf as <- <-.
    unfold settle. cbn [mongooseConnect setUri setPromise attempts snd].
    rewrite lookup_new_attempt. simpl.
    split_and!; try done.
    by rewrite insert_app_r_alt, Nat.sub_diag by done.
  - intros outs Hm. unfold awaitConnectDB. rewrite Hstart.
    pose proof (run_fallback 1 outs s) as Hrun.
    destruct (fallback s) as [st s2] eqn:Hf. simpl fst in Hrun. simpl snd in Hrun.
    rewrite Hrun. unfold fallback in Hf.
    destruct (memoryServers s) as [|[muri|] rest]; [|done|];
      injection Hf as <- <-; eexists; (split; [reflexivity|]); done.
Qed.

(** A call waiting for a promise that is then rejected, outside Vercel:
    it goes on with the in-memory branch. *)
Lemma run_AfterConnect_rejected_local (n : nat) (outs : list Outcome) (p : nat)
    (s : State) (uri : string) :
  attempts s !! p = Some (uri, None) →
  run (S n) (Reject :: outs) (Suspended (AfterConnect p false)) s
  = run n outs (fallback (settle p Reject s)).1 (fallback (settle p Reject s)).2.
Proof.
  intros Hlk. cbn [run awaited]. rewrite Hlk. cbn [hd tl resume].
  destruct (settle_pending p Reject s uri Hlk) as (Hlk' & _).
  rewrite Hlk'. cbn [inMemoryBranch negb].
  by destruct (fallback (settle p Reject s)).
Qed.

(** X19.  Local development with a [MONGODB_URI] that cannot be reached:
    after the rejected attempt [connectDB] silently switches to an
    in-memory server - it overwrites [MONGODB_URI] with the server's URI,
    replaces the cached promise by the second attempt's, and returns that
    connection. *)
Theorem connectDB_local_unreachable_uri_switches_to_memory_server
    (s : State) (uri muri : string) (rest : list (option string))
    (h : Handle) (outs : list Outcome) :
  onVercel s = false →
  MONGODB_URI s = Some uri → uri ≠ "" →
  cached_conn s = None → cached_promise s = None →
  memoryServers s = Some muri :: rest →
  ∃ s' : State,
    awaitConnectDB (Reject :: Resolve h :: outs) s = Some (Conn h, s')
    ∧ MONGODB_URI s' = Some muri
    ∧ cached_conn s' = Some h
    ∧ cached_promise s' = Some (S (length (attempts s)))
    ∧ attempts s' = attempts s ++ [(uri, Some Reject); (muri, Some (Resolve h))]
    ∧ readyState s' = Connected.
Proof.
  intros Hv Huri Hne Hc Hp Hm. unfold onVercel in Hv.
  assert (Htruthy : Js.env_truthy (MONGODB_URI s) = true).
  { rewrite Huri. simpl. by rewrite (bool_decide_eq_false_2 _ Hne). }
  unfold awaitConnectDB, connectDB.
  rewrite Hc, Htruthy, Hv, Hp, Huri. cbn [negb andb default mongooseConnect].
  set (s1 := setPromise _ _).
  assert (Hlk : attempts s1 !! length (attempts s) = Some (uri, None))
    by apply lookup_new_attempt.
  rewrite (run_AfterConnect_rejected_local 2 _ _ s1 uri Hlk).
  set (s2 := settle (length (attempts s)) Reject s1).
  assert (Hs2 : attempts s2 = attempts s ++ [(uri, Some Reject)]
                ∧ memoryServers s2 = Some muri :: rest).
  { subst s2. unfold settle. rewrite Hlk. subst s1. simpl.
    by rewrite insert_app_r_alt, Nat.sub_diag by done. }
  destruct Hs2 as [Ha2 Hm2].
  rewrite (run_fallback 0 (Resolve h :: outs) s2), Hm2. cbv zeta. cbn [hd].
  clearbody s2. clear s1 Hlk.
  eexists. split; [reflexivity|].
  unfold fallback, settle. rewrite Hm2. simpl. rewrite lookup_new_attempt. simpl.
  rewrite Ha2, length_app. simpl. rewrite Nat.add_1_r.
  split_and!; try done.
  replace (S (length (attempts s)))
    with (length (attempts s ++ [(uri, Some Reject)]))
    by (rewrite length_app; simpl; lia).
  rewrite insert_app_r_alt, Nat.sub_diag by done.
  simpl. by rewrite <- app_assoc.
Qed.

Lemma wf_settle (p : nat) (o : Outcome) (s : State) : wf s → wf (settle p o s).
Proof.
  intros Hwf q Hq.
  destruct (settle_frame p o s) as (_ & Hp & _ & _ & _ & _ & Hlen).
  rewrite Hlen. apply Hwf. by rewrite <- Hp.
Qed.

Lemma fallback_frame (s : State) :
  cached_conn (fallback s).2 = cached_conn s
  ∧ cached_promise (fallback s).2 = cached_promise s
  ∧ attempts (fallback s).2 = attempts s
  ∧ MONGODB_URI (fallback s).2 = MONGODB_URI s.
Proof. unfold fallback. by destruct (memoryServers s). Qed.

(** The in-memory branch always comes to an end, with at most one new
    attempt. *)
Lemma run_fallback_settles (n : nat) (outs : list Outcome) (s : State) :
  wf s → cached_conn s = None →
  ∃ (r : Result) (s' : State),
    run (S (S n)) outs (fallback s).1 (fallback s).2 = Some (r, s')
    ∧ wf s'
    ∧ (length (attempts s) ≤ length (attempts s') ≤ length (attempts s) + 1)%nat
    ∧ match r with
      | Conn h => cached_conn s' = Some h
      | _ => cached_conn s' = None
      end.
Proof.
  intros Hwf Hc. rewrite run_fallback.
  destruct (fallback_frame s) as (Hfc & Hfp & Hfa & _).
  destruct (memoryServers s) as [|[muri|] rest] eqn:Hm.
  - eexists _, _. split; [reflexivity|]. rewrite Hfa, Hfc.
    split_and!; [|lia|lia|done]. intros q Hq. rewrite Hfa. apply Hwf. by rewrite <- Hfp.
  - cbv zeta.
    match goal with
    | |- context [settle ?p ?o ?s0] => set (s3 := s0)
    end.
    assert (Hs3 : cached_conn s3 = None
                  ∧ cached_promise s3 = Some (length (attempts s))
                  ∧ length (attempts s3) = S (length (attempts s))).
    { subst s3. simpl. rewrite Hfc, Hfa, length_app. simpl.
      split_and!; [done|done|lia]. }
    destruct Hs3 as (Hc3 & Hp3 & Hl3).
    destruct (settle_frame (length (attempts s)) (hd Reject outs) s3)
      as (Hc4 & Hp4 & _ & _ & _ & _ & Hl4).
    clearbody s3.
    destruct (hd Reject outs) as [h|]; eexists _, _;
      (split; [reflexivity|]); simpl; rewrite ?Hc4, ?Hp4, ?Hl4, ?Hl3;
      (split_and!; [|lia|lia|done]); intros q Hq; simpl in *;
      rewrite ?Hp4, ?Hl4, ?Hl3 in *; rewrite Hp3 in Hq;
      injection Hq as <-; lia.
  - eexists _, _. split; [reflexivity|]. rewrite Hfa, Hfc.
    split_and!; [|lia|lia|done]. intros q Hq. rewrite Hfa. apply Hwf. by rewrite <- Hfp.
Qed.

(** A call waiting for an existing promise always comes to an end. *)
Lemma run_AfterConnect_settles (outs : list Outcome) (p : nat) (v : bool)
    (s : State) :
  wf s → cached_conn s = None → (p < length (attempts s))%nat →
  ∃ (r : Result) (s' : State),
    run 3 outs (Suspended (AfterConnect p v)) s = Some (r, s')
    ∧ wf s'
    ∧ (length (attempts s) ≤ length (attempts s') ≤ length (attempts s) + 1)%nat
    ∧ match r with
      | Conn h => cached_conn s' = Some h
      | _ => cached_conn s' = None
      end.
Proof.
  intros Hwf Hc Hp. apply lookup_lt_is_Some in Hp as [[uri o] Hlk].
  cbn [run awaited]. rewrite Hlk.
  assert (Hdone : ∀ (outs0 : list Outcome) (s0 : State) (o0 : Outcome),
            wf s0 → cached_conn s0 = None →
            length (attempts s0) = length (attempts s) →
            attempts s0 !! p = Some (uri, Some o0) →
            ∃ (r : Result) (s' : State),
              match resume (AfterConnect p v) s0 with
              | Some (st', s2) => run 2 outs0 st' s2
              | None => None
              end = Some (r, s')
              ∧ wf s'
              ∧ (length (attempts s) ≤ length (attempts s')
                 ≤ length (attempts s) + 1)%nat
              ∧ match r with
                | Conn h => cached_conn s' = Some h
                | _ => cached_conn s' = None
                end).
  { intros outs0 s0 o0 Hwf0 Hc0 Hl0 Hlk0. cbn [resume]. rewrite Hlk0.
    destruct o0 as [h|].
    - eexists _, _. split; [reflexivity|]. simpl. rewrite Hl0.
      split_and!; [|lia|lia|done]. intros q Hq. simpl in *. by apply Hwf0.
    - destruct v.
      + eexists _, _. split; [reflexivity|]. rewrite Hl0.
        split_and!; [done|lia|lia|done].
      + cbn [inMemoryBranch negb].
        destruct (run_fallback_settles 0 outs0 s0 Hwf0 Hc0)
          as (r & s' & Hrun & Hwf' & Hlen & Hr).
        destruct (fallback s0) as [st s2]. simpl in Hrun.
        exists r, s'. rewrite Hl0 in Hlen. done. }
  destruct o as [o|].
  - by apply (Hdone outs s o).
  - destruct (settle_pending p (hd Reject outs) s uri Hlk) as (Hlk' & _).
    destruct (settle_frame p (hd Reject outs) s)
      as (Hc' & _ & _ & _ & _ & _ & Hl').
    apply (Hdone (tl outs) _ (hd Reject outs)); [by apply wf_settle| |done..].
    by rewrite Hc'.
Qed.

(** X20.  [connectDB] always comes to an end, after at most three
    [await]s: whatever the promises do, a call returns, having started at
    most two connection attempts; it leaves a handle in [cached.conn]
    exactly when it returns one, and the cached promise is always one of
    the attempts made. *)
Theorem connectDB_always_settles (outs : list Outcome) (s : State) :
  wf s →
  ∃ (r : Result) (s' : State),
    awaitConnectDB outs s = Some (r, s')
    ∧ wf s'
    ∧ (length (attempts s) ≤ length (attempts s') ≤ length (attempts s) + 2)%nat
    ∧ match r with
      | Conn h => cached_conn s' = Some h
      | _ => cached_conn s' = None
      end.
Proof.
  intros Hwf. unfold awaitConnectDB, connectDB.
  destruct (cached_conn s) as [h|] eqn:Hc.
  { eexists _, _. split; [reflexivity|]. split_and!; [done|lia|lia|done]. }
  destruct (negb (Js.env_truthy (MONGODB_URI s))
            && (Js.env_truthy (VERCEL s) || Js.env_truthy (VERCEL_ENV s))).
  { eexists _, _. split; [reflexivity|]. split_and!; [done|lia|lia|done]. }
  destruct (Js.env_truthy (MONGODB_URI s)).
  - destruct (cached_promise s) as [p|] eqn:Hp.
    + destruct (run_AfterConnect_settles outs p
                  (Js.env_truthy (VERCEL s) || Js.env_truthy (VERCEL_ENV s)) s
                  Hwf Hc (Hwf p Hp)) as (r & s' & Hrun & Hwf' & Hlen & Hr).
      exists r, s'. split_and!; [done|done|lia|lia|done].
    + cbn [mongooseConnect].
      set (s1 := setPromise _ _).
      destruct (run_AfterConnect_settles outs (length (attempts s))
                  (Js.env_truthy (VERCEL s) || Js.env_truthy (VERCEL_ENV s)) s1)
        as (r & s' & Hrun & Hwf' & Hlen & Hr).
      * intros q Hq. subst s1. simpl in *. injection Hq as <-.
        rewrite length_app. simpl. lia.
      * done.
      * subst s1. simpl. rewrite length_app. simpl. lia.
      * exists r, s'. subst s1. simpl in Hlen. rewrite length_app in Hlen.
        simpl in Hlen. split_and!; [done|done|lia|lia|done].
  - unfold inMemoryBranch.
    destruct (negb (Js.env_truthy (VERCEL s) || Js.env_truthy (VERCEL_ENV s))).
    + destruct (run_fallback_settles 1 outs s Hwf Hc)
        as (r & s' & Hrun & Hwf' & Hlen & Hr).
      destruct (fallback s) as [st s2]. simpl in Hrun.
      exists r, s'. split_and!; [done|done|lia|lia|done].
    + eexists _, _. split; [reflexivity|]. split_and!; [done|lia|lia|done].
Qed.

(** ** Worked instances of the further properties *)

Import Cases.

#[local] Set Warnings "-abstract-large-number".

Lemma threePaid_uniqueIds : uniqueIds (store threePaid).
Proof.
  unfold uniqueIds. simpl.
  repeat (apply NoDup_cons; split;
          [intros Hin; repeat (apply elem_of_cons in Hin as [Hin|Hin];
                               [discriminate|]);
           by apply elem_of_nil in Hin|]).
  apply NoDup_nil_2.
Qed.

Lemma serve_keeps_unique_salaryIds_witness :
  uniqueIds (store threePaid)
  ∧ uniqueIds (store (@serve sampleMongoose oneDay threePaid)).
Proof.
  split; [exact threePaid_uniqueIds|].
  exact (@serve_keeps_unique_salaryIds sampleMongoose oneDay threePaid
           threePaid_uniqueIds).
Defined.

Lemma serve_keeps_documents_conforming_witness :
  Forall (@conforms sampleMongoose) (store emptyWorld)
  ∧ Forall (@conforms sampleMongoose)
      (store (@serve sampleMongoose oneDay emptyWorld)).
Proof.
  split; [apply Forall_nil_2|].
  exact (@serve_keeps_documents_conforming sampleMongoose oneDay emptyWorld
           (Forall_nil_2 _)).
Defined.

Example serve_oneDay :
  length (store (@serve sampleMongoose oneDay emptyWorld)) = 1%nat
  ∧ length (console (@serve sampleMongoose oneDay emptyWorld)) = 1%nat.
Proof. vm_compute. done. Qed.

Lemma addSalary_then_deleteSalary_restores_witness :
  ∃ w' : World,
    @addSalary sampleMongoose createAlice emptyWorld = (Redirect "/salaries", w')
    ∧ params_id (deleteRequest "SAL1700000000001")
      = "SAL" +:+ pretty (time (advance emptyWorld))
    ∧ deleteSalary (deleteRequest "SAL1700000000001") w'
      = (Redirect "/salaries", setStore (store emptyWorld) w').
Proof.
  eexists. split; [exact addSalary_createAlice|].
  split; [vm_compute; reflexivity|].
  apply (@addSalary_then_deleteSalary_restores sampleMongoose createAlice
           (deleteRequest "SAL1700000000001") emptyWorld _
           addSalary_createAlice).
  vm_compute. reflexivity.
Defined.

Lemma addSalary_then_getSalaries_lists_it_witness :
  ∃ (w' : World) (listed : list Doc),
    @addSalary sampleMongoose createAlice emptyWorld = (Redirect "/salaries", w')
    ∧ (getSalaries (deleteRequest "") w').1
      = Render "pages/salaries"
          {| title := "Salaries"; salaries := listed;
             user := Some clerk; path := "/salaries" |}
    ∧ length listed = 1%nat.
Proof.
  destruct (@addSalary_then_getSalaries_lists_it sampleMongoose createAlice
              (deleteRequest "") emptyWorld _ addSalary_createAlice)
    as (d & listed & Hrun & _ & Hlen & _).
  eexists _, listed. split; [exact addSalary_createAlice|].
  split; [by rewrite Hrun|exact Hlen].
Defined.

Lemma deleteSalary_twice_witness :
  dbUp threePaid = true ∧ uniqueIds (store threePaid)
  ∧ deleteSalary (deleteRequest "SAL10")
      (deleteSalary (deleteRequest "SAL10") threePaid).2
    = (Redirect "/salaries", (deleteSalary (deleteRequest "SAL10") threePaid).2).
Proof.
  split; [reflexivity|]. split; [exact threePaid_uniqueIds|].
  exact (deleteSalary_twice (deleteRequest "SAL10") threePaid eq_refl
           threePaid_uniqueIds).
Defined.

Lemma addSalary_requires_name_and_amount_witness :
  session_user createNameless = Some clerk
  ∧ Js.get (body createNameless) "employeeName"
    ∈ [Js.Undefined; Js.Null; Js.Str ""]
  ∧ ∃ (w' : World) (paths : gset string),
      @addSalary sampleMongoose createNameless emptyWorld
      = (Send 500 "Server Error", w')
      ∧ store w' = store emptyWorld ∧ "employeeName" ∈ paths
      ∧ console w' = console emptyWorld ++ [ValidationError paths].
Proof.
  assert (Js.get (body createNameless) "employeeName"
          ∈ [Js.Undefined; Js.Null; Js.Str ""]) as Hin.
  { change (Js.get (body createNameless) "employeeName") with (Js.Str "").
    apply elem_of_cons. right. apply elem_of_cons. right.
    apply elem_of_cons. by left. }
  split; [reflexivity|]. split; [exact Hin|].
  destruct (proj1 (@addSalary_requires_name_and_amount sampleMongoose
                     createNameless emptyWorld clerk eq_refl) Hin)
    as (w' & paths & Hrun & Hs & Hc & Hp).
  exists w', paths. split; [exact Hrun|]. split; [exact Hs|].
  split; [exact Hp|exact Hc].
Defined.







Lemma dbMissing_is_falsy_at_the_routes_witness :
  ∃ (s' : State) (globals : ViewGlobals),
    beforeRoutes None "/salaries" (Some clerk) [Resolve 7%nat] coldStart
    = Some (ToRoutes globals, s')
    ∧ Js.truthy (dbMissing globals) = false
    ∧ businessName globals = "WHIZ POS".
Proof.
  assert (Hrun : beforeRoutes None "/salaries" (Some clerk) [Resolve 7%nat]
                   coldStart
                 = Some (ToRoutes (viewGlobals None "/salaries" (Some clerk)
                                     coldStart),
                         setConn 7%nat (settle 0 (Resolve 7%nat) coldStart)))
    by (vm_compute; reflexivity).
  destruct (dbMissing_is_falsy_at_the_routes None "/salaries" (Some clerk)
              [Resolve 7%nat] coldStart _ _ Hrun) as (Hfalsy & _).
  eexists _, _. split; [exact Hrun|]. split; [exact Hfalsy|reflexivity].
Defined.

Example beforeRoutes_vercelWithoutUri :
  Js.truthy (dbMissing (viewGlobals None "/" None vercelWithoutUri)) = true
  ∧ beforeRoutes None "/" None [] vercelWithoutUri
    = Some (Answered 503 "Setup Required", vercelWithoutUri).
Proof. vm_compute. done. Qed.

Example startServer_twoPortsTaken :
  startServer 3 twoPortsTaken 5000 5000
  = Some (Some 5002%nat,
          [PortBusy 5000 5001; PortBusy 5001 5002; ServerRunning 5002;
           FallbackWarning 5000 5002]).
Proof. vm_compute. reflexivity. Qed.

Lemma startServer_listens_on_first_free_port_witness :
  ∃ lines,
    startServer 3 twoPortsTaken 5000 5000 = Some (Some 5002%nat, lines)
    ∧ twoPortsTaken 5002 = Listening
    ∧ (∀ p, (5000 ≤ p < 5002)%nat → twoPortsTaken p = AddrInUse).
Proof.
  eexists. split; [exact startServer_twoPortsTaken|].
  destruct (startServer_listens_on_first_free_port 3 twoPortsTaken 5000 5000
              5002 _ startServer_twoPortsTaken) as (_ & Hq & Hbusy & _).
  split; [exact Hq|exact Hbusy].
Defined.

Example startServer_allPortsTaken :
  (λ r, (fst <$> r, length ∘ snd <$> r))
    (startServer 8 allPortsTaken 5000 65530)
  = (Some None, Some 7%nat).
Proof. vm_compute. reflexivity. Qed.

Lemma startServer_retries_until_a_port_is_not_in_use_witness :
  (65530 ≤ maxPort + 1)%nat
  ∧ (∀ p, (65530 ≤ p ≤ maxPort)%nat → allPortsTaken p = AddrInUse)
  ∧ (maxPort + 1 - 65530 < 8)%nat
  ∧ startServer 8 allPortsTaken 5000 65530
    = Some (None,
            ((λ p, PortBusy p (p + 1)) <$> seq 65530 (maxPort + 1 - 65530))
            ++ [UncaughtRangeError (maxPort + 1)]).
Proof.
  assert (65530 ≤ maxPort + 1)%nat as Hstart
    by (apply Nat.leb_le; vm_compute; reflexivity).
  assert (∀ p, (65530 ≤ p ≤ maxPort)%nat → allPortsTaken p = AddrInUse) as Hall
    by (intros p _; reflexivity).
  assert (maxPort + 1 - 65530 < 8)%nat as Hn
    by (apply Nat.ltb_lt; vm_compute; reflexivity).
  destruct (startServer_retries_until_a_port_is_not_in_use allPortsTaken
              5000 65530) as (_ & Hrange & _).
  split; [exact Hstart|]. split; [exact Hall|]. split; [exact Hn|].
  exact (Hrange Hstart Hall 8%nat Hn).
Defined.

Lemma connectDB_onVercel_never_falls_back_witness :
  onVercel coldStart = true
  ∧ ∃ (r : Result) (s' : State),
      awaitConnectDB [Reject] coldStart = Some (r, s')
      ∧ r ≠ RUndefined
      ∧ memoryServers s' = memoryServers coldStart
      ∧ MONGODB_URI s' = MONGODB_URI coldStart.
Proof.
  split; [reflexivity|].
  assert (Hrun : awaitConnectDB [Reject] coldStart
                 = Some (RNull, settle 0 Reject coldStart))
    by (vm_compute; reflexivity).
  destruct (connectDB_onVercel_never_falls_back [Reject] coldStart _ _ eq_refl
              Hrun) as (Hr & Hm & Hu & _).
  eexists _, _. split; [exact Hrun|]. split; [exact Hr|].
  split; [exact Hm|exact Hu].
Defined.

Lemma onVercel_without_uri_every_request_gets_503_witness :
  onVercel vercelWithoutUri = true
  ∧ Js.env_truthy (MONGODB_URI vercelWithoutUri) = false
  ∧ cached_conn vercelWithoutUri = None
  ∧ readyState vercelWithoutUri ≠ Connected
  ∧ dbGuard [Resolve 1%nat] vercelWithoutUri
    = Some (Respond 503 "Setup Required", vercelWithoutUri).
Proof.
  assert (readyState vercelWithoutUri ≠ Connected) as Hrs by discriminate.
  split; [reflexivity|]. split; [reflexivity|]. split; [reflexivity|].
  split; [exact Hrs|].
  exact (proj2 (onVercel_without_uri_every_request_gets_503 vercelWithoutUri
                  eq_refl eq_refl eq_refl Hrs) [Resolve 1%nat]).
Defined.

Lemma onVercel_rejected_promise_is_never_retried_witness :
  onVercel vercelRejected = true
  ∧ cached_promise vercelRejected = Some 0%nat
  ∧ attempts vercelRejected !! 0%nat
    = Some ("mongodb+srv://cluster/pos", Some Reject)
  ∧ awaitConnectDB [Resolve 1%nat] vercelRejected = Some (RNull, vercelRejected).
Proof.
  split; [reflexivity|]. split; [reflexivity|]. split; [reflexivity|].
  exact (proj1 (onVercel_rejected_promise_is_never_retried vercelRejected 0
                  "mongodb+srv://cluster/pos" eq_refl eq_refl eq_refl eq_refl
                  eq_refl) [Resolve 1%nat]).
Defined.

Lemma connectDB_local_without_uri_uses_memory_server_witness :
  onVercel localWithoutUri = false
  ∧ Js.env_truthy (MONGODB_URI localWithoutUri) = false
  ∧ cached_conn localWithoutUri = None
  ∧ ∃ s' : State,
      awaitConnectDB [Resolve 3%nat] localWithoutUri = Some (Conn 3%nat, s')
      ∧ MONGODB_URI s' = Some "mongodb://127.0.0.1:40000/"
      ∧ cached_conn s' = Some 3%nat.
Proof.
  split; [reflexivity|]. split; [reflexivity|]. split; [reflexivity|].
  destruct (proj1 (connectDB_local_without_uri_uses_memory_server
                     localWithoutUri eq_refl eq_refl eq_refl)
              "mongodb://127.0.0.1:40000/" [] 3%nat [] eq_refl)
    as (s' & Hrun & Hu & Hc & _).
  exists s'. split; [exact Hrun|]. split; [exact Hu|exact Hc].
Defined.

Lemma connectDB_local_unreachable_uri_switches_to_memory_server_witness :
  onVercel localUnreachable = false
  ∧ MONGODB_URI localUnreachable = Some "mongodb://localhost:27017/pos"
  ∧ ∃ s' : State,
      awaitConnectDB [Reject; Resolve 3%nat] localUnreachable
      = Some (Conn 3%nat, s')
      ∧ MONGODB_URI s' = Some "mongodb://127.0.0.1:40000/"
      ∧ length (attempts s') = 2%nat.
Proof.
  split; [reflexivity|]. split; [reflexivity|].
  destruct (connectDB_local_unreachable_uri_switches_to_memory_server
              localUnreachable "mongodb://localhost:27017/pos"
              "mongodb://127.0.0.1:40000/" [] 3%nat [] eq_refl eq_refl)
    as (s' & Hrun & Hu & _ & _ & Ha & _); [discriminate|reflexivity..|].
  exists s'. split; [exact Hrun|]. split; [exact Hu|]. by rewrite Ha.
Defined.

Lemma connectDB_always_settles_witness :
  wf coldStart
  ∧ ∃ (r : Result) (s' : State),
      awaitConnectDB [Resolve 7%nat] coldStart = Some (r, s') ∧ wf s'.
Proof.
  split; [exact coldStart_wf|].
  destruct (connectDB_always_settles [Resolve 7%nat] coldStart coldStart_wf)
    as (r & s' & Hrun & Hwf & _).
  exists r, s'. split; [exact Hrun|exact Hwf].
Defined.
